(** * DailyStatus: the stand-up report generator of [main.py]

  A shallow embedding of the functions of [main.py] that do not draw
  widgets: the settings store ([load_config], [save_config]), the Git
  helpers ([list_branches], [gather_diffs]), the prompt builder
  ([build_template], [build_full_prompt]) and the Gemini call
  ([generate_with_gemini]).

  Python exceptions are values of [exn], and a fallible computation returns
  a [result].  A [str] is represented by its UTF-8 encoding, so the en dash
  of the length directives is three bytes, and searching, splitting and
  joining agree with Python's, which works on code points.  The libraries
  the program calls ([git], [requests], [json], [pathlib], [time]) are not
  part of it: each call is modelled by its outcome, which is part of the
  world the function runs in. *)

From Stdlib Require Import ZArith String Ascii List Bool Lia.
From stdpp Require Import gmap strings list fin_maps.

Set Warnings "-register-all".

Open Scope string_scope.
Open Scope Z_scope.

(** ** Python values and exceptions *)

Module Py.

(** The exceptions that can leave the modelled functions. *)
Inductive exn : Type :=
| RuntimeError (msg : string)
| InvalidGitRepositoryError (path : string)
| NoSuchPathError (path : string)
| GitCommandError (msg : string)
| RequestException (msg : string)
| HTTPError (status : Z)
| JSONDecodeError
| OSError (msg : string)
| KeyError (key : string)
| IndexError
| TypeError
| ValueError
| AttributeError
| OverflowError.

Inductive result (A : Type) : Type :=
| Ok (a : A)
| Raise (e : exn).
Arguments Ok {A} a.
Arguments Raise {A} e.

Definition bind {A B : Type} (m : result A) (k : A -> result B) : result B :=
  match m with
  | Ok a => k a
  | Raise e => Raise e
  end.

Definition is_ok {A : Type} (m : result A) : bool :=
  match m with Ok _ => true | Raise _ => false end.

(** [seq[i]] on a list. *)
Definition getitem {A : Type} (l : list A) (i : nat) : result A :=
  match nth_error l i with
  | Some x => Ok x
  | None => Raise IndexError
  end.

(** [d[k]] on a dict with string keys. *)
Definition lookup_key {A : Type} (d : gmap string A) (k : string) : result A :=
  match d !! k with
  | Some x => Ok x
  | None => Raise (KeyError k)
  end.

End Py.
Export Py.

Notation "'let*' x ':=' m 'in' k" := (bind m (fun x => k))
(at level 10, x name, m at level 100, k at level 200).

(** ** Strings *)

Module Str.

(** The line feed, written [\n] in the source. *)
Definition nl : string := String (ascii_of_nat 10) EmptyString.

(** [sep.join(l)] is [String.concat sep l]; [a + b] is [a ++ b]. *)
Definition join (sep : string) (l : list string) : string := String.concat sep l.

(** [s[:n]] *)
Fixpoint take (n : nat) (s : string) : string :=
  match n, s with
  | S k, String c s' => String c (take k s')
  | _, _ => EmptyString
  end.

(** [sub in s] *)
Fixpoint contains (sub s : string) : bool :=
  String.prefix sub s ||
  match s with
  | EmptyString => false
  | String _ s' => contains sub s'
  end.

(** The scan of [s.split(sep)] for a non-empty [sep]: occurrences are taken
    left to right and do not overlap.  [skip] counts the bytes of the
    occurrence just found that are still to be passed over; the head of the
    result is the piece under construction. *)
Fixpoint split_go (sep : string) (skip : nat) (s : string) : list string :=
  match s with
  | EmptyString => [EmptyString]
  | String c s' =>
      match skip with
      | S k => split_go sep k s'
      | O =>
          if String.prefix sep s
          then EmptyString :: split_go sep (String.length sep - 1) s'
          else match split_go sep O s' with
               | p :: ps => String c p :: ps
               | [] => [String c EmptyString]
               end
      end
  end.

(** [s.split(sep)]: an empty separator is a [ValueError]. *)
Definition split (s sep : string) : result (list string) :=
  match sep with
  | EmptyString => Raise ValueError
  | _ => Ok (split_go sep O s)
  end.

(** *** Whitespace, for [str.strip()]

    The code points for which [str.isspace] holds, in UTF-8: the ASCII ones
    are one byte, U+0085 and U+00A0 two, and U+1680, U+2000..U+200A,
    U+2028, U+2029, U+202F, U+205F and U+3000 three. *)
Definition code (c : ascii) : Z := Z.of_nat (nat_of_ascii c).

Definition space1 (a : Z) : bool :=
  (9 <=? a) && (a <=? 13) || (28 <=? a) && (a <=? 32).

Definition space2 (a b : Z) : bool :=
  (a =? 194) && ((b =? 133) || (b =? 160)).

Definition space3 (a b c : Z) : bool :=
  (a =? 225) && (b =? 154) && (c =? 128)
  || (a =? 226) && (b =? 128)
     && ((128 <=? c) && (c <=? 138) || (c =? 168) || (c =? 169) || (c =? 175))
  || (a =? 226) && (b =? 129) && (c =? 159)
  || (a =? 227) && (b =? 128) && (c =? 128).

(** [lstrip_go fwd s] drops the leading whitespace of [s]; with [fwd] false
    [s] is read as a reversed string, its multi-byte characters last byte
    first. *)
Fixpoint lstrip_go (fwd : bool) (s : string) : string :=
  match s with
  | EmptyString => EmptyString
  | String a s1 =>
      if space1 (code a) then lstrip_go fwd s1
      else match s1 with
           | EmptyString => s
           | String b s2 =>
               if (if fwd then space2 (code a) (code b) else space2 (code b) (code a))
               then lstrip_go fwd s2
               else match s2 with
                    | EmptyString => s
                    | String c s3 =>
                        if (if fwd then space3 (code a) (code b) (code c)
                            else space3 (code c) (code b) (code a))
                        then lstrip_go fwd s3
                        else s
                    end
           end
  end.

Definition lstrip (s : string) : string := lstrip_go true s.
Definition rstrip (s : string) : string := String.rev (lstrip_go false (String.rev s)).

(** [s.strip()] *)
Definition strip (s : string) : string := rstrip (lstrip s).

(** *** Code points

    A byte [10xxxxxx] continues the character begun before it. *)
Definition continuation (c : ascii) : bool := (128 <=? code c) && (code c <? 192).

(** The continuation bytes a string starts with. *)
Fixpoint cont_prefix (s : string) : string :=
  match s with
  | EmptyString => EmptyString
  | String d t => if continuation d then String d (cont_prefix t) else EmptyString
  end.

(** The characters of a string, as [for ch in s] yields them: a leading
    byte with the continuation bytes that follow it. *)
Fixpoint chars (s : string) : list string :=
  match s with
  | EmptyString => []
  | String c s' =>
      if continuation c then chars s'
      else String c (cont_prefix s') :: chars s'
  end.

End Str.

(** ** Dates and times ([datetime], [time]) *)

Module DateTime.

(** [datetime.date] *)
Record date : Type := mkdate { year : Z; month : Z; day : Z }.

(** A naive [datetime.datetime]. *)
Record datetime : Type := mkdatetime {
  dt_year : Z; dt_month : Z; dt_day : Z;
  dt_hour : Z; dt_minute : Z; dt_second : Z; dt_microsecond : Z }.

(** [datetime.time]; [time_min] is [time.min], [time_max] is [time.max]. *)
Record time : Type := mktime { hour : Z; minute : Z; second : Z; microsecond : Z }.
Definition time_min : time := mktime 0 0 0 0.
Definition time_max : time := mktime 23 59 59 999999.

(** [datetime.combine(d, t)] *)
Definition combine (d : date) (t : time) : datetime :=
  mkdatetime (year d) (month d) (day d) (hour t) (minute t) (second t) (microsecond t).

(** [a <= b] on naive datetimes: the fields are compared in order, year
    first. *)
Fixpoint lex_le (a b : list Z) : bool :=
  match a, b with
  | x :: a', y :: b' => (x <? y) || ((x =? y) && lex_le a' b')
  | _, _ => true
  end.

Definition fields (a : datetime) : list Z :=
  [dt_year a; dt_month a; dt_day a; dt_hour a; dt_minute a; dt_second a; dt_microsecond a].

Definition le (a b : datetime) : bool := lex_le (fields a) (fields b).

(** The civil date of a day count from 1970-01-01 in the proleptic
    Gregorian calendar, as [localtime] computes it. *)
Definition civil_from_days (z : Z) : Z * Z * Z :=
  let z := z + 719468 in
  let era := z / 146097 in
  let doe := z - era * 146097 in
  let yoe := (doe - doe / 1460 + doe / 36524 - doe / 146096) / 365 in
  let doy := doe - (365 * yoe + yoe / 4 - yoe / 100) in
  let mp := (5 * doy + 2) / 153 in
  let d := doy - (153 * mp + 2) / 5 + 1 in
  let m := if mp <? 10 then mp + 3 else mp - 9 in
  let y := yoe + era * 400 + (if m <=? 2 then 1 else 0) in
  (y, m, d).

(** [datetime.fromtimestamp(ts)] for an integer [ts]: the local time, which
    is UTC shifted by the offset the zone has at [ts], with no
    microseconds.  A year outside 1..9999 is refused. *)
Definition fromtimestamp (utcoffset : Z -> Z) (ts : Z) : result datetime :=
  let local := ts + utcoffset ts in
  let '(y, m, d) := civil_from_days (local / 86400) in
  let sod := local mod 86400 in
  if (1 <=? y) && (y <=? 9999)
  then Ok (mkdatetime y m d (sod / 3600) (sod mod 3600 / 60) (sod mod 60) 0)
  else Raise ValueError.

(** *** [strftime] *)

Definition digit (n : Z) : ascii := ascii_of_nat (48 + Z.to_nat (n mod 10)).

Definition pad2 (n : Z) : string :=
  String (digit (n / 10)) (String (digit n) EmptyString).

Definition pad4 (n : Z) : string :=
  String (digit (n / 1000)) (String (digit (n / 100)) (pad2 n)).

(** [%B] in the C locale. *)
Definition month_name (m : Z) : string :=
  match m with
  | 1 => "January" | 2 => "February" | 3 => "March" | 4 => "April"
  | 5 => "May" | 6 => "June" | 7 => "July" | 8 => "August"
  | 9 => "September" | 10 => "October" | 11 => "November" | 12 => "December"
  | _ => ""
  end.

(** [d.strftime("%d.%m.%Y")] *)
Definition strftime_dmy (d : date) : string :=
  pad2 (day d) ++ "." ++ pad2 (month d) ++ "." ++ pad4 (year d).

(** [d.strftime("%B %d, %Y")] *)
Definition strftime_long (d : date) : string :=
  month_name (month d) ++ " " ++ pad2 (day d) ++ ", " ++ pad4 (year d).

End DateTime.

(** ** Prompt parts *)

Module Prompt.
Import Str DateTime.

Definition sentence_map : gmap string string :=
  <["short" := "Use 2–3 sentences."]>
    (<["medium" := "Use 4–5 sentences."]>
       (<["long" := "Use 6–8 sentences."]> ∅)).

Definition example : string :=
  "09.04.2025:" ++ nl ++
  "Added a logging system - integrated the logger into the login (auth/login/route.ts) " ++
  "and user creation (user/create/route.ts) endpoints, updated audit logs." ++ nl ++ nl ++
  "10.04.2025:" ++ nl ++
  "Implemented MFA for all users - added /api/mfa endpoints (QR code, TOTP), extended login logic, " ++
  "created migration and userMFA schema, updated middleware.".

Definition build_template (project : string) (d : date) (style : string) : result string :=
  let fmtd := strftime_dmy d in
  let* directive := lookup_key sentence_map style in
  Ok ("You are an assistant that writes " ++ style ++
      " daily stand-up updates for software engineers." ++ nl ++
      "Project: " ++ project ++ nl ++
      "Date: " ++ strftime_long d ++ nl ++ nl ++
      "Here are the detailed code diffs for today:" ++ nl ++ nl ++
      directive ++ nl ++ nl ++
      "Generate a status in the exact format of the examples below:" ++ nl ++ nl ++
      example ++ nl ++ nl ++
      "Now write only the entry for " ++ fmtd ++ ":").

Definition no_changes : string := "No code changes today.".

(** [diffs_block] of [build_full_prompt]: an empty list is falsy. *)
Definition diffs_block (diffs : list string) : string :=
  match diffs with
  | [] => no_changes
  | _ => join (nl ++ nl) diffs
  end.

Definition build_full_prompt (diffs : list string) (project : string) (d : date)
    (style : string) : result string :=
  let* header := build_template project d style in
  let block := diffs_block diffs in
  let* sep := lookup_key sentence_map style in
  let* parts := split header sep in
  let* part0 := getitem parts 0 in
  let* directive := lookup_key sentence_map style in
  let* part1 := getitem parts 1 in
  Ok (part0 ++ block ++ nl ++ nl ++ directive ++ part1).

End Prompt.

(** ** JSON values ([json], [dict], [list])

  What [json.loads] and [resp.json()] return.  A float is kept as its IEEE
  754 binary64 bit pattern, an object as its items in insertion order, the
  keys pairwise distinct. *)

Module Json.
Import Str.

Inductive json : Type :=
| JNull
| JBool (b : bool)
| JInt (n : Z)
| JFloat (bits : Z)
| JStr (s : string)
| JArr (l : list json)
| JObj (items : list (string * json)).

(** The items of an object as a map. *)
Definition to_dict (items : list (string * json)) : gmap string json :=
  list_to_map items.

(** [bool(v)]: [None], [False], zero, and the empty string, list and dict
    are falsy. *)
Definition truthy (v : json) : bool :=
  match v with
  | JNull => false
  | JBool b => b
  | JInt n => negb (n =? 0)
  | JFloat bits => negb (bits mod 2 ^ 63 =? 0)
  | JStr s => negb (String.eqb s EmptyString)
  | JArr l => match l with [] => false | _ => true end
  | JObj o => match o with [] => false | _ => true end
  end.

(** [v.get(k, default)]: only a dict has [get]. *)
Definition get (v : json) (k : string) (default : json) : result json :=
  match v with
  | JObj o => Ok (match to_dict o !! k with Some x => x | None => default end)
  | _ => Raise AttributeError
  end.

(** [v[k]] for a string [k]. *)
Definition subscript (v : json) (k : string) : result json :=
  match v with
  | JObj o => lookup_key (to_dict o) k
  | _ => Raise TypeError
  end.

(** [v[0]] *)
Definition subscript0 (v : json) : result json :=
  match v with
  | JArr l => getitem l 0
  | JStr s => let* c := getitem (chars s) 0 in Ok (JStr c)
  | JObj _ => Raise (KeyError "0")
  | _ => Raise TypeError
  end.

(** [iter(v)], run to the end: a list yields its elements, a string its
    characters, a dict its keys. *)
Definition iterate (v : json) : result (list json) :=
  match v with
  | JArr l => Ok l
  | JStr s => Ok (map JStr (chars s))
  | JObj o => Ok (map (fun kv => JStr (fst kv)) o)
  | _ => Raise TypeError
  end.

(** A loop body run over a list, stopping at the first exception. *)
Fixpoint mapM {A B : Type} (f : A -> result B) (l : list A) : result (list B) :=
  match l with
  | [] => Ok []
  | x :: l' => let* y := f x in let* ys := mapM f l' in Ok (y :: ys)
  end.

(** [sep.join(items)] on values: every item has to be a [str]. *)
Definition join_values (sep : string) (items : list json) : result string :=
  let* strs := mapM (fun v => match v with JStr s => Ok s | _ => Raise TypeError end) items in
  Ok (join sep strs).

(** *** [dict.update]

    The dicts of the program have string keys, and a [gmap string json]
    holds their string-keyed items.  [d.update(v)] merges a dict [v] into
    [d]; any other [v] is iterated as a sequence of pairs, each element
    itself a sequence of length two, the first of them a hashable key.  An
    exception leaves the items stored before it in place.  A key that is a
    number, a boolean or [None] is stored too, but it is no string key. *)
Definition as_pair (e : json) : result (json * json) :=
  let* elems := iterate e in
  match elems with
  | [k; v] => Ok (k, v)
  | _ => Raise ValueError
  end.

Definition set_item (d : gmap string json) (k v : json) : result (gmap string json) :=
  match k with
  | JStr s => Ok (<[s := v]> d)
  | JArr _ | JObj _ => Raise TypeError
  | _ => Ok d
  end.

Fixpoint update_pairs (d : gmap string json) (l : list json)
    : gmap string json * option exn :=
  match l with
  | [] => (d, None)
  | e :: l' =>
      match (let* kv := as_pair e in set_item d (fst kv) (snd kv)) with
      | Ok d' => update_pairs d' l'
      | Raise x => (d, Some x)
      end
  end.

Definition update (d : gmap string json) (v : json) : gmap string json * option exn :=
  match v with
  | JObj o => (to_dict o ∪ d, None)
  | _ =>
      match iterate v with
      | Ok l => update_pairs d l
      | Raise x => (d, Some x)
      end
  end.

End Json.

(** ** Message boxes *)

Module Ui.

Definition APP_NAME : string := "DailyStatus".

(** The text of a dialog: a literal, or one built from [str(e)]. *)
Inductive text : Type :=
| Literal (s : string)
| StrOf (e : exn)
| CannotSave (e : exn).

(** [messagebox.showwarning], [showinfo] and [showerror], with title
    [APP_NAME]. *)
Inductive dialog : Type :=
| ShowWarning (t : text)
| ShowInfo (t : text)
| ShowError (t : text).

End Ui.

(** ** Settings I/O *)

Module Settings.
Import Json Ui.

(** [json.dumps(cfg, indent=2)] and [json.loads], over the file's text. *)
Record codec : Type := {
  text : Type;
  dumps : gmap string json -> text;
  loads : text -> result json }.

(** The file at [CONFIG_PATH]: its text if it exists, and the error, if
    any, that reading or writing it meets. *)
Record config_file (C : codec) : Type := {
  content : option (text C);
  read_error : option exn;
  write_error : option exn }.
Arguments content {C} _.
Arguments read_error {C} _.
Arguments write_error {C} _.

Definition exists_ {C : codec} (f : config_file C) : bool :=
  match content f with Some _ => true | None => false end.

Definition read_text {C : codec} (f : config_file C) : result (text C) :=
  match read_error f, content f with
  | Some e, _ => Raise e
  | None, Some t => Ok t
  | None, None => Raise (OSError "No such file or directory")
  end.

Definition write_text {C : codec} (f : config_file C) (t : text C) : result (config_file C) :=
  match write_error f with
  | Some e => Raise e
  | None => Ok {| content := Some t; read_error := read_error f; write_error := None |}
  end.

(** The record [load_config] starts from; [cwd] is [str(Path.cwd())]. *)
Definition defaults (cwd : string) : gmap string json :=
  <["project_folder" := JStr cwd]>
    (<["report_style" := JStr "short"]>
       (<["branches" := JArr []]>
          (<["api_key" := JStr ""]>
             (<["prompt_template" := JStr ""]> ∅)))).

(** The keys of the record [load_config] starts from. *)
Definition default_keys : list string :=
  ["project_folder"; "report_style"; "branches"; "api_key"; "prompt_template"].

(** A preferences record: a dict that has the five settings. *)
Definition preferences (cfg : gmap string json) : Prop :=
  forall k, In k default_keys -> is_Some (cfg !! k).

Definition corrupted : dialog := ShowWarning (Literal "Config corrupted — using defaults.").

Definition load_config {C : codec} (cwd : string) (f : config_file C)
    : gmap string json * list dialog :=
  let cfg := defaults cwd in
  if exists_ f then
    match (let* t := read_text f in loads C t) with
    | Ok v =>
        match update cfg v with
        | (cfg', None) => (cfg', [])
        | (cfg', Some _) => (cfg', [corrupted])
        end
    | Raise _ => (cfg, [corrupted])
    end
  else (cfg, []).

Definition save_config {C : codec} (f : config_file C) (cfg : gmap string json)
    : config_file C * list dialog :=
  match write_text f (dumps C cfg) with
  | Ok f' => (f', [ShowInfo (Literal "Settings saved.")])
  | Raise e => (f, [ShowError (CannotSave e)])
  end.

End Settings.

(** ** Git helpers *)

Module Git.
Import Str DateTime.

(** A [git.Commit]: [committed_date] is in seconds since the epoch. *)
Inductive commit : Type :=
  mkcommit { hexsha : string; committed_date : Z; parents : list commit }.

(** An opened [git.Repo]: the names of its heads, the name of the active
    branch (a [TypeError] when HEAD is detached), the commits
    [iter_commits(rev)] yields, in the order it yields them, and the output
    of [git diff a b] and of [git show a]. *)
Record repo : Type := {
  heads : list string;
  active_branch : result string;
  iter_commits : string -> result (list commit);
  git_diff : string -> string -> result string;
  git_show : string -> result string }.

(** What [Repo(path)] does at each path, and the offset of local time from
    UTC at each instant.  [Repo] raises [NoSuchPathError] where nothing
    exists at the path and [InvalidGitRepositoryError] where something
    exists that is no repository. *)
Record world : Type := {
  Repo : string -> result repo;
  utcoffset : Z -> Z }.

Definition list_branches (w : world) (repo_path : string) : result (list string) :=
  match Repo w repo_path with
  | Raise (InvalidGitRepositoryError _) => Ok []
  | Raise e => Raise e
  | Ok r => Ok (heads r)
  end.

(** The patch of one commit: against its first parent, or the whole commit
    when it has none. *)
Definition patch_of (r : repo) (c : commit) : result string :=
  match parents c with
  | p :: _ => git_diff r (hexsha p) (hexsha c)
  | [] => git_show r (hexsha c)
  end.

Definition entry (br : string) (c : commit) (patch : string) : string :=
  "Commit " ++ take 7 (hexsha c) ++ " on " ++ br ++ ":" ++ nl ++ patch.

(** The inner loop of [gather_diffs], over the commits of branch [br];
    [diffs] is the list built so far. *)
Fixpoint commits_loop (w : world) (r : repo) (since until : datetime) (br : string)
    (commits : list commit) (diffs : list string) : result (list string) :=
  match commits with
  | [] => Ok diffs
  | c :: rest =>
      let* cd := fromtimestamp (utcoffset w) (committed_date c) in
      if negb (le since cd && le cd until)
      then commits_loop w r since until br rest diffs
      else
        let* patch := patch_of r c in
        commits_loop w r since until br rest (diffs ++ [entry br c patch])
  end.

(** The outer loop, over the branches. *)
Fixpoint branches_loop (w : world) (r : repo) (since until : datetime)
    (branches : list string) (diffs : list string) : result (list string) :=
  match branches with
  | [] => Ok diffs
  | br :: rest =>
      let* commits := iter_commits r br in
      let* diffs' := commits_loop w r since until br commits diffs in
      branches_loop w r since until rest diffs'
  end.

Definition not_a_repository : exn := RuntimeError "Not a Git repository.".

Definition gather_diffs (w : world) (path : string) (branches : list string) (d : date)
    : result (list string) :=
  let* r := match Repo w path with
            | Raise (InvalidGitRepositoryError _) => Raise not_a_repository
            | other => other
            end in
  let* branches := match branches with
                   | [] => let* name := active_branch r in Ok [name]
                   | _ => Ok branches
                   end in
  let since := combine d time_min in
  let until := combine d time_max in
  branches_loop w r since until branches [].

End Git.

(** ** Gemini API call *)

Module Gemini.
Import Str Json.

Definition GEMINI_URL : string :=
  "https://generativelanguage.googleapis.com/v1beta/" ++
  "models/gemini-2.0-flash:generateContent".

(** A [requests.Response]: the status code and what [resp.json()] does. *)
Record response : Type := {
  status_code : Z;
  json_body : result json }.

(** [requests.post(url, headers=..., json=payload, timeout=60)]: a response,
    or the exception of a failed transport (a timeout is one). *)
Definition transport : Type := string -> json -> result response.

Definition payload (prompt : string) : json :=
  JObj [("contents", JArr [JObj [("parts", JArr [JObj [("text", JStr prompt)]])]])].

(** [resp.raise_for_status()]: client errors are 400..499, server errors
    500..599. *)
Definition raise_for_status (resp : response) : result unit :=
  if (400 <=? status_code resp) && (status_code resp <? 600)
  then Raise (HTTPError (status_code resp))
  else Ok tt.

Definition no_response : exn := RuntimeError "No response from Gemini API.".

Definition generate_with_gemini (post : transport) (prompt api_key : string)
    : result string :=
  let url := GEMINI_URL ++ "?key=" ++ api_key in
  let* resp := post url (payload prompt) in
  let* _ := raise_for_status resp in
  let* body := json_body resp in
  let* cands := get body "candidates" (JArr []) in
  if negb (truthy cands) then Raise no_response
  else
    let* first := subscript0 cands in
    let* content := subscript first "content" in
    let* parts := subscript content "parts" in
    let* ps := iterate parts in
    let* texts := mapM (fun p => get p "text" (JStr "")) ps in
    let* joined := join_values "" texts in
    Ok (strip joined).

End Gemini.

(** ** The generate helper of the main window *)

Module App.
Import Str DateTime Prompt Git Gemini Ui.

(** [s.replace(old, new)] *)
Definition replace (s old new : string) : string :=
  match old with
  | EmptyString => new ++ String.concat "" (map (fun c => c ++ new) (chars s))
  | _ => join new (split_go old O s)
  end.

(** The two text areas and the dialogs shown so far. *)
Record window : Type := {
  prompt_w : string;
  output_w : string;
  dialogs : list dialog }.

(** [widget.get('1.0', 'end')]: Tk ends the text with a line feed. *)
Definition widget_get (contents : string) : string := contents ++ nl.

(** The libraries [_generate] calls apart from Git and the transport:
    [datetime.strptime(s, DATE_FMT).date()] and [Path(p).stem]. *)
Record platform : Type := {
  strptime : string -> result date;
  stem : string -> string }.

(** The [try] block of [_generate]; the prompt area is its state. *)
Definition generate_body (w : world) (post : transport) (pf : platform)
    (repo_path : string) (branches : list string) (date_str rpt_style api_key : string)
    (prompt0 : string) : string * result string :=
  match (let* date_obj := strptime pf date_str in
         let* diffs := gather_diffs w repo_path branches date_obj in
         let proj := stem pf repo_path in
         let* header := build_template proj date_obj rpt_style in
         Ok (date_obj, diffs, proj, header)) with
  | Raise e => (prompt0, Raise e)
  | Ok (date_obj, diffs, proj, header) =>
      (header,
       let* full := build_full_prompt diffs proj date_obj rpt_style in
       let edited := strip (widget_get header) in
       generate_with_gemini post (replace full header edited) api_key)
  end.

Definition _generate (w : world) (post : transport) (pf : platform)
    (repo_path : string) (branches : list string) (date_str rpt_style api_key : string)
    (win : window) : window :=
  match generate_body w post pf repo_path branches date_str rpt_style api_key (prompt_w win) with
  | (p, Ok res) => {| prompt_w := p; output_w := res; dialogs := dialogs win |}
  | (p, Raise e) =>
      {| prompt_w := p; output_w := ""; dialogs := dialogs win ++ [ShowError (StrOf e)] |}
  end.

End App.

(** ** The statements of the specification

  The definitions below follow the words of the specification and are
  compared with the code above. *)

Module GitSpec.
Import Str DateTime Git.

(** The window [D 00:00:00, D 23:59:59] of a date [D], both ends included. *)
Definition day_start (d : date) : datetime := combine d (mktime 0 0 0 0).
Definition day_end (d : date) : datetime := combine d (mktime 23 59 59 0).

Definition within_day (d : date) (cd : datetime) : bool :=
  le (day_start d) cd && le cd (day_end d).

(** The repository at a path, with the error of [gather_diffs] where the
    path holds something that is no repository. *)
Definition open (w : world) (path : string) : result repo :=
  match Repo w path with
  | Raise (InvalidGitRepositoryError _) => Raise not_a_repository
  | other => other
  end.

(** The branches read: those asked for, or the active one when none is. *)
Definition requested (r : repo) (branches : list string) : result (list string) :=
  match branches with
  | [] => let* name := active_branch r in Ok [name]
  | _ => Ok branches
  end.

(** The entries of one branch: one for each commit of the traversal whose
    commit time is within the day, in the order of the traversal. *)
Fixpoint traversal_diffs (w : world) (r : repo) (d : date) (br : string)
    (commits : list commit) : result (list string) :=
  match commits with
  | [] => Ok []
  | c :: rest =>
      let* cd := fromtimestamp (utcoffset w) (committed_date c) in
      if within_day d cd
      then
        let* patch := patch_of r c in
        let* tl := traversal_diffs w r d br rest in
        Ok (entry br c patch :: tl)
      else traversal_diffs w r d br rest
  end.

Definition branch_diffs (w : world) (r : repo) (d : date) (br : string)
    : result (list string) :=
  let* commits := iter_commits r br in traversal_diffs w r d br commits.

(** A commit of the traversal of [br] that the day [d] selects, with its
    patch. *)
Definition selected (w : world) (r : repo) (d : date) (br : string) (c : commit)
    (patch : string) : Prop :=
  exists commits cd,
    iter_commits r br = Ok commits /\ In c commits /\
    fromtimestamp (utcoffset w) (committed_date c) = Ok cd /\
    within_day d cd = true /\
    patch_of r c = Ok patch.

(** What leaves [gather_diffs] when [Repo] raises [e]. *)
Definition gather_error (e : exn) : exn :=
  match e with
  | InvalidGitRepositoryError _ => not_a_repository
  | _ => e
  end.

End GitSpec.

Module PromptSpec.
Import Str DateTime Prompt.

(** The text of the header before the length directive, and the text after
    it. *)
Definition header_before (project : string) (d : date) (style : string) : string :=
  "You are an assistant that writes " ++ style ++
  " daily stand-up updates for software engineers." ++ nl ++
  "Project: " ++ project ++ nl ++
  "Date: " ++ strftime_long d ++ nl ++ nl ++
  "Here are the detailed code diffs for today:" ++ nl ++ nl.

Definition header_after (d : date) : string :=
  nl ++ nl ++
  "Generate a status in the exact format of the examples below:" ++ nl ++ nl ++
  example ++ nl ++ nl ++
  "Now write only the entry for " ++ strftime_dmy d ++ ":".

(** The header with [block] put in before the directive. *)
Definition spliced (project : string) (d : date) (style directive block : string) : string :=
  header_before project d style ++ block ++ nl ++ nl ++ directive ++ header_after d.

(** The text before the directive, around the project name. *)
Definition before_project (style : string) : string :=
  "You are an assistant that writes " ++ style ++
  " daily stand-up updates for software engineers." ++ nl ++ "Project: ".

Definition after_project (d : date) : string :=
  nl ++ "Date: " ++ strftime_long d ++ nl ++ nl ++
  "Here are the detailed code diffs for today:" ++ nl ++ nl.

(** [c] occurs in [s]. *)
Fixpoint has_char (c : ascii) (s : string) : bool :=
  match s with
  | EmptyString => false
  | String a s' => Ascii.eqb c a || has_char c s'
  end.

(** No occurrence of [sep] in [x ++ tail] starts within [x]. *)
Fixpoint no_start (sep x tail : string) : bool :=
  match x with
  | EmptyString => true
  | String _ x' => negb (String.prefix sep (x ++ tail)) && no_start sep x' tail
  end.

Definition first_char (s : string) : option ascii :=
  match s with
  | EmptyString => None
  | String c _ => Some c
  end.

End PromptSpec.

Module GeminiSpec.
Import Str Json Gemini.

(** The response has no candidates: the key is absent, or its value is
    falsy. *)
Definition no_candidates (body : json) : Prop :=
  exists o,
    body = JObj o /\
    truthy (match to_dict o !! "candidates" with Some c => c | None => JArr [] end) = false.

(** [parts] is the value of [content.parts] of the first candidate. *)
Definition first_candidate_parts (body parts : json) : Prop :=
  exists o first rest content,
    body = JObj o /\
    to_dict o !! "candidates" = Some (JArr (JObj first :: rest)) /\
    to_dict first !! "content" = Some (JObj content) /\
    to_dict content !! "parts" = Some parts.

(** The text fragment of one part: the string under [text], or the empty
    string when the part has no such key. *)
Definition part_text (p : json) (t : string) : Prop :=
  exists o,
    p = JObj o /\
    (to_dict o !! "text" = Some (JStr t) \/ (to_dict o !! "text" = None /\ t = "")).

Definition fragments (parts : json) (texts : list string) : Prop :=
  exists ps, iterate parts = Ok ps /\ Forall2 part_text ps texts.

Definition client_or_server_error (resp : response) : Prop :=
  400 <= status_code resp < 600.

End GeminiSpec.

(** A repository with three commits on [main], the last two of them also on
  [dev], in a world where [/repo] holds it, [/tmp] exists and is no
  repository, and nothing else exists; local time is UTC. *)
Module Demo.
Import Str DateTime Git.

(** 2025-04-09 00:00:00, 2025-04-09 23:59:59 and 2025-04-10 00:00:00 UTC. *)
Definition root_commit : commit := mkcommit "1f0e9d8c7b6a" 1744156800 [].
Definition second_commit : commit := mkcommit "2a3b4c5d6e7f" 1744243199 [root_commit].
Definition third_commit : commit := mkcommit "3c2d1e0f9a8b" 1744243200 [second_commit].

Definition sample_repo : repo := {|
  heads := ["main"; "dev"];
  active_branch := Ok "main";
  iter_commits := fun rev =>
    if String.eqb rev "main" then Ok [third_commit; second_commit; root_commit]
    else if String.eqb rev "dev" then Ok [second_commit; root_commit]
    else Raise (GitCommandError "bad revision");
  git_diff := fun a b => Ok ("diff " ++ a ++ " " ++ b);
  git_show := fun a => Ok ("show " ++ a) |}.

Definition sample_world : world := {|
  Repo := fun path =>
    if String.eqb path "/repo" then Ok sample_repo
    else if String.eqb path "/tmp" then Raise (InvalidGitRepositoryError path)
    else Raise (NoSuchPathError path);
  utcoffset := fun _ => 0 |}.

Definition april_9 : date := mkdate 2025 4 9.

(** The date field parsed for this one date only, and every folder named
    [repo]. *)
Definition sample_platform : App.platform := {|
  App.strptime := fun s =>
    if String.eqb s "2025-04-09" then Ok april_9 else Raise ValueError;
  App.stem := fun _ => "repo" |}.

(** A transport that never reaches the server. *)
Definition offline : Gemini.transport :=
  fun _ _ => Raise (RequestException "connection refused").

(** A server that answers every request with [body] and status 200. *)
Definition reply (body : Json.json) : Gemini.transport :=
  fun _ _ => Ok {| Gemini.status_code := 200; Gemini.json_body := Ok body |}.

Import Json.

(** One candidate whose only text fragment has blanks around it. *)
Definition padded_body : json :=
  JObj [("candidates",
         JArr [JObj [("content", JObj [("parts", JArr [JObj [("text", JStr " Did X. ")]])])]])].

(** One candidate that was blocked: it has a finish reason and no content. *)
Definition blocked_body : json :=
  JObj [("candidates", JArr [JObj [("finishReason", JStr "SAFETY")]])].

(** A codec that keeps the dict itself as the text of the file. *)
Definition plain_codec : Settings.codec := {|
  Settings.text := gmap string json;
  Settings.dumps := fun d => d;
  Settings.loads := fun t => Ok (JObj (map_to_list t)) |}.

(** No settings file yet, on a disk that can be read and written. *)
Definition fresh_file : Settings.config_file plain_codec :=
  {| Settings.content := None; Settings.read_error := None; Settings.write_error := None |}.

(** The settings after a first save from the main window. *)
Definition saved_settings : gmap string json :=
  <["date" := JStr "2025-04-09"]>
    (<["api_key" := JStr "secret"]>
       (<["branches" := JArr [JStr "main"]]> (Settings.defaults "/repo"))).

(** A folder named like the directive of style [short], and one named like
    the directive twice. *)
Definition directive_name : string := "Use 2–3 sentences.".
Definition doubled_name : string := "Use 2–3 sentences.Use 2–3 sentences.".

(** What [build_full_prompt] makes of these names when there are no diffs. *)
Definition cut_prompt : string :=
  "You are an assistant that writes short daily stand-up updates for software engineers."
  ++ Str.nl ++ "Project: No code changes today." ++ Str.nl ++ Str.nl ++
  "Use 2–3 sentences." ++ Str.nl ++ "Date: April 09, 2025" ++ Str.nl ++ Str.nl ++
  "Here are the detailed code diffs for today:" ++ Str.nl ++ Str.nl.

Definition short_prompt : string :=
  "You are an assistant that writes short daily stand-up updates for software engineers."
  ++ Str.nl ++ "Project: No code changes today." ++ Str.nl ++ Str.nl ++
  "Use 2–3 sentences.".

Definition empty_window : App.window :=
  {| App.prompt_w := ""; App.output_w := ""; App.dialogs := [] |}.

End Demo.

(** ** The save action of the main window *)

Module MainWindow.
Import Str Json Ui Settings App.




End MainWindow.

(** ** The steps of the Gemini call *)

Module GeminiSteps.
Import Str Json Gemini.

(** The part of [generate_with_gemini] behind [resp.json()]. *)
Definition read_candidates (body : json) : result string :=
  let* cands := get body "candidates" (JArr []) in
  if negb (truthy cands) then Raise no_response
  else
    let* first := subscript0 cands in
    let* content := subscript first "content" in
    let* parts := subscript content "parts" in
    let* ps := iterate parts in
    let* texts := mapM (fun p => get p "text" (JStr "")) ps in
    let* joined := join_values "" texts in
    Ok (strip joined).

End GeminiSteps.

(** ** Settings files that hold a list *)

Module PairList.
Import Json.

(** A key and a value as a JSON array of two elements. *)
Definition pair_json (kv : string * json) : json := JArr [JStr (fst kv); snd kv].

(** The items stored one after the other, a later one over an earlier one. *)
Definition store (pairs : list (string * json)) (d : gmap string json) : gmap string json :=
  fold_left (fun m kv => <[fst kv := snd kv]> m) pairs d.

(** A codec whose text is the list of the JSON values of a top-level list. *)
Definition list_codec : Settings.codec := {|
  Settings.text := list json;
  Settings.dumps := fun d => map pair_json (map_to_list d);
  Settings.loads := fun l => Ok (JArr l) |}.

(** The law of [json] the round trips rest on: a dict that was dumped loads
    as a dict with the same items. *)
Definition lawful (C : Settings.codec) : Prop :=
  forall d : gmap string json,
    exists items,
      Settings.loads C (Settings.dumps C d) = Ok (JObj items) /\ to_dict items = d.

End PairList.

(** ** Calendar days *)

Module Calendar.
Import DateTime.

(** The date of a datetime is the given date: [cd.date() == d]. *)
Definition same_date (cd : datetime) (d : date) : bool :=
  (dt_year cd =? year d) && (dt_month cd =? month d) && (dt_day cd =? day d).

End Calendar.

(** The form as it stands after a first run on [/repo]. *)
Module DemoForm.



(** A repository whose HEAD is detached and whose [git diff] fails. *)
Definition detached_repo : Git.repo := {|
  Git.heads := ["main"];
  Git.active_branch := Raise TypeError;
  Git.iter_commits := Git.iter_commits Demo.sample_repo;
  Git.git_diff := fun _ _ => Raise (GitCommandError "diff failed");
  Git.git_show := Git.git_show Demo.sample_repo |}.

Definition detached_world : Git.world := {|
  Git.Repo := fun _ => Ok detached_repo;
  Git.utcoffset := fun _ => 7200 |}.

End DemoForm.

(** * Proofs *)

(** ** The result monad *)

Module ResultFacts.

Lemma bind_ok {A B : Type} (m : result A) (k : A -> result B) (b : B) :
  bind m k = Ok b -> exists a, m = Ok a /\ k a = Ok b.
Proof. destruct m as [a|e]; simpl; intros H; [eauto | discriminate]. Qed.

Lemma bind_assoc {A B C : Type} (m : result A) (k : A -> result B) (h : B -> result C) :
  bind (bind m k) h = bind m (fun a => bind (k a) h).
Proof. destruct m; reflexivity. Qed.

Lemma mapM_ok {A B : Type} (f : A -> result B) (l : list A) (ys : list B) :
  Json.mapM f l = Ok ys -> Forall2 (fun x y => f x = Ok y) l ys.
Proof.
  revert ys; induction l as [|x l IH]; simpl; intros ys H.
  - injection H as <-. constructor.
  - apply bind_ok in H as (y & Hy & H).
    apply bind_ok in H as (ys' & Hys & H).
    injection H as <-. constructor; auto.
Qed.

Lemma mapM_of_Forall2 {A B : Type} (f : A -> result B) (l : list A) (ys : list B) :
  Forall2 (fun x y => f x = Ok y) l ys -> Json.mapM f l = Ok ys.
Proof.
  induction 1 as [|x y l ys Hxy _ IH]; simpl; [reflexivity|].
  rewrite Hxy; simpl. rewrite IH. reflexivity.
Qed.

End ResultFacts.

(** ** Diff collection *)

Module GitFacts.
Import Str DateTime Git GitSpec ResultFacts.

Lemma fromtimestamp_whole_second (off : Z -> Z) (ts : Z) (cd : datetime) :
  fromtimestamp off ts = Ok cd -> dt_microsecond cd = 0.
Proof.
  unfold fromtimestamp.
  destruct (civil_from_days _) as [[y m] d].
  destruct (_ && _); [|discriminate].
  intros H; injection H as <-. reflexivity.
Qed.

(** A time with no microseconds is before [time.max] of a day exactly when
    it is before 23:59:59 of that day. *)
Lemma window_whole_second (d : date) (cd : datetime) :
  dt_microsecond cd = 0 ->
  le (combine d time_min) cd && le cd (combine d time_max) = within_day d cd.
Proof.
  intros Hus. unfold within_day, day_start, day_end, time_min.
  f_equal. destruct cd as [y m dd h mi s us]; simpl in Hus; subst us.
  unfold le, fields, combine; simpl.
  reflexivity.
Qed.

Lemma commits_loop_traversal (w : world) (r : repo) (d : date) (br : string)
    (commits : list commit) (diffs : list string) :
  commits_loop w r (combine d time_min) (combine d time_max) br commits diffs =
  (let* g := traversal_diffs w r d br commits in Ok (diffs ++ g)%list).
Proof.
  revert diffs; induction commits as [|c rest IH]; intros diffs; simpl.
  - rewrite app_nil_r. reflexivity.
  - destruct (fromtimestamp (utcoffset w) (committed_date c)) as [cd|e] eqn:Hcd;
      simpl; [|reflexivity].
    rewrite (window_whole_second d cd (fromtimestamp_whole_second _ _ _ Hcd)).
    destruct (within_day d cd); simpl; [|apply IH].
    destruct (patch_of r c) as [patch|e]; simpl; [|reflexivity].
    rewrite IH.
    destruct (traversal_diffs w r d br rest) as [tl|e]; simpl; [|reflexivity].
    rewrite <- app_assoc. reflexivity.
Qed.

Lemma branches_loop_traversal (w : world) (r : repo) (d : date)
    (branches : list string) (diffs : list string) :
  branches_loop w r (combine d time_min) (combine d time_max) branches diffs =
  (let* groups := Json.mapM (branch_diffs w r d) branches in
   Ok (diffs ++ concat groups)%list).
Proof.
  revert diffs; induction branches as [|br rest IH]; intros diffs; simpl.
  - rewrite app_nil_r. reflexivity.
  - unfold branch_diffs at 1.
    destruct (iter_commits r br) as [commits|e]; simpl; [|reflexivity].
    rewrite commits_loop_traversal.
    destruct (traversal_diffs w r d br commits) as [g|e]; simpl; [|reflexivity].
    rewrite IH.
    destruct (Json.mapM (branch_diffs w r d) rest) as [gs|e]; simpl; [|reflexivity].
    rewrite <- app_assoc. reflexivity.
Qed.

Lemma gather_diffs_unfold (w : world) (path : string) (branches : list string) (d : date) :
  gather_diffs w path branches d =
  (let* r := open w path in
   let* bs := requested r branches in
   let* groups := Json.mapM (branch_diffs w r d) bs in
   Ok (concat groups)).
Proof.
  unfold gather_diffs, open.
  destruct (Repo w path) as [r|e]; simpl; [|destruct e; reflexivity].
  fold (requested r branches).
  destruct (requested r branches) as [bs|e]; simpl; [|reflexivity].
  apply branches_loop_traversal.
Qed.

(** The entries of one branch are those of its selected commits. *)
Lemma traversal_diffs_In (w : world) (r : repo) (d : date) (br : string)
    (commits : list commit) (g : list string) :
  traversal_diffs w r d br commits = Ok g ->
  forall e, In e g <->
    exists c cd patch,
      In c commits /\
      fromtimestamp (utcoffset w) (committed_date c) = Ok cd /\
      within_day d cd = true /\
      patch_of r c = Ok patch /\
      e = entry br c patch.
Proof.
  revert g; induction commits as [|c rest IH]; simpl; intros g H e.
  - injection H as <-. split; [intros []|intros (c & _ & _ & [] & _)].
  - apply bind_ok in H as (cd & Hcd & H).
    destruct (within_day d cd) eqn:Hin.
    + apply bind_ok in H as (patch & Hp & H).
      apply bind_ok in H as (tl & Htl & H).
      injection H as <-. simpl. rewrite (IH tl Htl e). split.
      * intros [<- | (c' & cd' & p' & Hc' & Hrest)].
        -- exists c, cd, patch. auto.
        -- exists c', cd', p'. tauto.
      * intros (c' & cd' & p' & [<- | Hc'] & Hcd' & Hw & Hp' & ->).
        -- left. congruence.
        -- right. exists c', cd', p'. auto.
    + rewrite (IH g H e). split.
      * intros (c' & cd' & p' & Hc' & Hrest). exists c', cd', p'. tauto.
      * intros (c' & cd' & p' & [<- | Hc'] & Hcd' & Hw & Hp' & ->).
        -- congruence.
        -- exists c', cd', p'. auto.
Qed.

Lemma gather_diffs_In (w : world) (path : string) (branches : list string) (d : date)
    (diffs : list string) :
  gather_diffs w path branches d = Ok diffs ->
  exists r bs,
    Repo w path = Ok r /\ requested r branches = Ok bs /\
    forall e, In e diffs <->
      exists br c patch, In br bs /\ selected w r d br c patch /\ e = entry br c patch.
Proof.
  rewrite gather_diffs_unfold. intros H.
  apply bind_ok in H as (r & Hr & H).
  apply bind_ok in H as (bs & Hbs & H).
  apply bind_ok in H as (groups & Hg & H).
  injection H as <-.
  exists r, bs. split; [|split; [exact Hbs|]].
  { unfold open in Hr. destruct (Repo w path) as [r'|[]]; congruence. }
  apply mapM_ok in Hg. clear Hbs Hr.
  induction Hg as [|br g bs groups Hbr _ IH]; intros e; simpl.
  - split; [intros []|intros (br & _ & _ & [] & _)].
  - rewrite in_app_iff, IH. clear IH.
    unfold branch_diffs in Hbr.
    apply bind_ok in Hbr as (commits & Hit & Htr).
    rewrite (traversal_diffs_In _ _ _ _ _ _ Htr e). split.
    + intros [(c & cd & p & Hc & Hcd & Hw & Hp & ->) | (br' & c & p & Hbr' & Hsel & ->)].
      * exists br, c, p. split; [auto|]. split; [|reflexivity].
        exists commits, cd. auto.
      * exists br', c, p. auto.
    + intros (br' & c & p & [<- | Hbr'] & Hsel & ->).
      * left. destruct Hsel as (commits' & cd & Hit' & Hc & Hcd & Hw & Hp).
        exists c, cd, p. rewrite Hit in Hit'. injection Hit' as <-. auto.
      * right. exists br', c, p. auto.
Qed.

End GitFacts.

(** ** Claims on diff collection *)

Module GitClaims.
Import Str DateTime Git GitSpec ResultFacts GitFacts.

(** C1: when [gather_diffs] returns, its entries are exactly the entries of
    the commits whose commit time, in local time, lies in the window
    [D 00:00:00, D 23:59:59] (both ends included), and the commits are
    those of the branches of [B], or of the active branch of the repository
    when [B] is empty. *)
Theorem gather_diffs_window_and_branches (w : world) (path : string)
    (B : list string) (D : date) (diffs : list string) :
  gather_diffs w path B D = Ok diffs ->
  exists r bs,
    Repo w path = Ok r /\
    (B = [] -> exists name, active_branch r = Ok name /\ bs = [name]) /\
    (B <> [] -> bs = B) /\
    forall e, In e diffs <->
      exists br c patch, In br bs /\ selected w r D br c patch /\ e = entry br c patch.
Proof.
  intros H. destruct (gather_diffs_In _ _ _ _ _ H) as (r & bs & Hr & Hbs & Hin).
  exists r, bs. repeat split; try apply Hin; auto.
  - intros ->. simpl in Hbs. apply bind_ok in Hbs as (name & Hname & Hbs).
    exists name. split; congruence.
  - intros HB. destruct B; [contradiction|]. simpl in Hbs. congruence.
Qed.

Lemma gather_diffs_window_and_branches_witness :
  exists r bs,
    Repo Demo.sample_world "/repo" = Ok r /\
    (@nil string = [] -> exists name, active_branch r = Ok name /\ bs = [name]) /\
    (@nil string <> [] -> bs = []) /\
    forall e,
      In e ["Commit 2a3b4c5 on main:" ++ nl ++ "diff 1f0e9d8c7b6a 2a3b4c5d6e7f";
            "Commit 1f0e9d8 on main:" ++ nl ++ "show 1f0e9d8c7b6a"] <->
      exists br c patch,
        In br bs /\ selected Demo.sample_world r Demo.april_9 br c patch /\
        e = entry br c patch.
Proof.
  apply (gather_diffs_window_and_branches Demo.sample_world "/repo" [] Demo.april_9).
  reflexivity.
Defined.

Lemma traversal_diffs_selected (w : world) (r : repo) (d : date) (br : string)
    (commits : list commit) (g : list string) (c : commit) (cd : datetime) :
  traversal_diffs w r d br commits = Ok g ->
  In c commits ->
  fromtimestamp (utcoffset w) (committed_date c) = Ok cd ->
  within_day d cd = true ->
  exists patch, patch_of r c = Ok patch /\ In (entry br c patch) g.
Proof.
  revert g; induction commits as [|c' rest IH]; simpl; intros g H Hc Hcd Hw; [contradiction|].
  apply bind_ok in H as (cd' & Hcd' & H).
  destruct Hc as [-> | Hc].
  - rewrite Hcd in Hcd'. injection Hcd' as <-. rewrite Hw in H.
    apply bind_ok in H as (patch & Hp & H).
    apply bind_ok in H as (tl & _ & H). injection H as <-.
    exists patch. simpl. auto.
  - destruct (within_day d cd').
    + apply bind_ok in H as (patch' & _ & H).
      apply bind_ok in H as (tl & Htl & H). injection H as <-.
      destruct (IH tl Htl Hc Hcd Hw) as (patch & Hp & Hin).
      exists patch. simpl. auto.
    + apply (IH g H Hc Hcd Hw).
Qed.

(** C6: an entry of a selected commit holds the diff against the first
    parent of the commit when it has a parent, and the output of
    [git show], the whole commit, when it has none. *)
Theorem gather_diffs_patch_of_commit (w : world) (path : string) (B : list string)
    (D : date) (diffs : list string) (r : repo)
    (br : string) (cs : list commit) (c : commit) (cd : datetime) (branches : list string) :
  gather_diffs w path B D = Ok diffs ->
  Repo w path = Ok r ->
  requested r B = Ok branches ->
  In br branches ->
  iter_commits r br = Ok cs ->
  In c cs ->
  fromtimestamp (utcoffset w) (committed_date c) = Ok cd ->
  within_day D cd = true ->
  match parents c with
  | p :: _ =>
      exists patch,
        git_diff r (hexsha p) (hexsha c) = Ok patch /\ In (entry br c patch) diffs
  | [] =>
      exists patch, git_show r (hexsha c) = Ok patch /\ In (entry br c patch) diffs
  end.
Proof.
  rewrite gather_diffs_unfold. unfold open.
  intros H Hr Hbs Hbr Hit Hc Hcd Hw.
  rewrite Hr in H. simpl in H. rewrite Hbs in H. simpl in H.
  apply bind_ok in H as (groups & Hg & H). injection H as <-.
  apply mapM_ok in Hg.
  assert (exists patch, patch_of r c = Ok patch /\ In (entry br c patch) (concat groups))
    as (patch & Hp & Hin).
  { clear Hbs. induction Hg as [|br' g brs groups Hbr' _ IH]; simpl in *; [contradiction|].
    destruct Hbr as [-> | Hbr].
    - unfold branch_diffs in Hbr'. rewrite Hit in Hbr'. simpl in Hbr'.
      destruct (traversal_diffs_selected _ _ _ _ _ _ _ _ Hbr' Hc Hcd Hw) as (patch & Hp & Hin).
      exists patch. rewrite in_app_iff. auto.
    - destruct (IH Hbr) as (patch & Hp & Hin).
      exists patch. rewrite in_app_iff. auto. }
  unfold patch_of in Hp. destruct (parents c); exists patch; auto.
Qed.

Lemma gather_diffs_patch_of_commit_witness :
  (exists patch,
      git_diff Demo.sample_repo "1f0e9d8c7b6a" "2a3b4c5d6e7f" = Ok patch /\
      In (entry "main" Demo.second_commit patch)
        ["Commit 2a3b4c5 on main:" ++ nl ++ "diff 1f0e9d8c7b6a 2a3b4c5d6e7f";
         "Commit 1f0e9d8 on main:" ++ nl ++ "show 1f0e9d8c7b6a"]) /\
  (exists patch,
      git_show Demo.sample_repo "1f0e9d8c7b6a" = Ok patch /\
      In (entry "main" Demo.root_commit patch)
        ["Commit 2a3b4c5 on main:" ++ nl ++ "diff 1f0e9d8c7b6a 2a3b4c5d6e7f";
         "Commit 1f0e9d8 on main:" ++ nl ++ "show 1f0e9d8c7b6a"]).
Proof.
  split.
  - apply (gather_diffs_patch_of_commit Demo.sample_world "/repo" ["main"] Demo.april_9
             _ Demo.sample_repo "main"
             [Demo.third_commit; Demo.second_commit; Demo.root_commit]
             Demo.second_commit
             (mkdatetime 2025 4 9 23 59 59 0) ["main"]);
      try reflexivity; simpl; auto.
  - apply (gather_diffs_patch_of_commit Demo.sample_world "/repo" ["main"] Demo.april_9
             _ Demo.sample_repo "main"
             [Demo.third_commit; Demo.second_commit; Demo.root_commit]
             Demo.root_commit
             (mkdatetime 2025 4 9 0 0 0 0) ["main"]);
      try reflexivity; simpl; auto.
Defined.

Lemma mapM_app {A B : Type} (f : A -> result B) (l1 l2 : list A) :
  Json.mapM f (l1 ++ l2) =
  (let* a := Json.mapM f l1 in let* b := Json.mapM f l2 in Ok (a ++ b)%list).
Proof.
  induction l1 as [|x l1 IH]; simpl.
  - destruct (Json.mapM f l2); reflexivity.
  - destruct (f x); simpl; [|reflexivity]. rewrite IH.
    destruct (Json.mapM f l1); simpl; [|reflexivity].
    destruct (Json.mapM f l2); reflexivity.
Qed.

(** C8: the entries come branch by branch, the branches in the order the
    caller gave them and the commits of a branch in the order of its
    traversal; the entries of two lists of branches are those of the first
    followed by those of the second, whatever commits the branches share. *)
Theorem gather_diffs_order (w : world) (path : string) (D : date) :
  (forall B,
      gather_diffs w path B D =
      (let* r := open w path in
       let* bs := requested r B in
       let* groups := Json.mapM (branch_diffs w r D) bs in
       Ok (concat groups))) /\
  (forall b1 B1 b2 B2,
      gather_diffs w path ((b1 :: B1) ++ b2 :: B2) D =
      (let* g1 := gather_diffs w path (b1 :: B1) D in
       let* g2 := gather_diffs w path (b2 :: B2) D in
       Ok (g1 ++ g2)%list)).
Proof.
  split; [intros B; apply gather_diffs_unfold|].
  intros b1 B1 b2 B2. rewrite !gather_diffs_unfold.
  destruct (open w path) as [r|e]; [|reflexivity].
  unfold requested. cbn [app bind].
  change (b1 :: (B1 ++ b2 :: B2)%list) with ((b1 :: B1) ++ (b2 :: B2))%list.
  rewrite mapM_app.
  destruct (Json.mapM (branch_diffs w r D) (b1 :: B1)) as [g1|e]; cbn [bind]; [|reflexivity].
  destruct (Json.mapM (branch_diffs w r D) (b2 :: B2)) as [g2|e]; cbn [bind]; [|reflexivity].
  rewrite concat_app. reflexivity.
Qed.

(** The second commit and the root commit are on [main] and on [dev]: asked
    for both branches, [gather_diffs] gives each of them twice. *)
Example gather_diffs_shared_commits :
  gather_diffs Demo.sample_world "/repo" ["main"; "dev"] Demo.april_9 =
  Ok ["Commit 2a3b4c5 on main:" ++ nl ++ "diff 1f0e9d8c7b6a 2a3b4c5d6e7f";
      "Commit 1f0e9d8 on main:" ++ nl ++ "show 1f0e9d8c7b6a";
      "Commit 2a3b4c5 on dev:" ++ nl ++ "diff 1f0e9d8c7b6a 2a3b4c5d6e7f";
      "Commit 1f0e9d8 on dev:" ++ nl ++ "show 1f0e9d8c7b6a"].
Proof. reflexivity. Qed.

(** C7, as it is written, at a path where nothing exists: [Repo] raises
    [NoSuchPathError], which [gather_diffs] does not catch. *)
Lemma gather_diffs_missing_path :
  (forall r, Repo Demo.sample_world "/nowhere" <> Ok r) /\
  gather_diffs Demo.sample_world "/nowhere" [] Demo.april_9
    = Raise (NoSuchPathError "/nowhere") /\
  gather_diffs Demo.sample_world "/nowhere" [] Demo.april_9 <> Raise not_a_repository.
Proof. repeat split; [intros r|]; discriminate. Qed.

(** C7, amended: where [Repo(path)] raises [InvalidGitRepositoryError],
    [gather_diffs] raises the [RuntimeError] "Not a Git repository.", and
    any other exception of [Repo(path)] leaves it unchanged; [_generate]
    then shows the text of that exception, leaves the output area empty and
    the prompt area as it was. *)
Theorem gather_diffs_not_a_repository (w : world) (path : string) (e : exn) :
  Repo w path = Raise e ->
  (forall B D, gather_diffs w path B D = Raise (gather_error e)) /\
  (forall p, e = InvalidGitRepositoryError p ->
             forall B D, gather_diffs w path B D = Raise (RuntimeError "Not a Git repository.")) /\
  (forall post pf B date_str D style key win,
      App.strptime pf date_str = Ok D ->
      App._generate w post pf path B date_str style key win =
      {| App.prompt_w := App.prompt_w win;
         App.output_w := "";
         App.dialogs := (App.dialogs win ++ [Ui.ShowError (Ui.StrOf (gather_error e))])%list |}).
Proof.
  intros He.
  assert (Hg : forall B D, gather_diffs w path B D = Raise (gather_error e)).
  { intros B D. unfold gather_diffs. rewrite He. destruct e; reflexivity. }
  split; [exact Hg|]. split.
  - intros p -> B D. apply Hg.
  - intros post pf B date_str D style key win Hd.
    unfold App._generate, App.generate_body. rewrite Hd. simpl.
    rewrite Hg. reflexivity.
Qed.

Lemma gather_diffs_not_a_repository_witness :
  gather_diffs Demo.sample_world "/tmp" ["main"] Demo.april_9
    = Raise (RuntimeError "Not a Git repository.") /\
  App._generate Demo.sample_world Demo.offline Demo.sample_platform "/tmp" ["main"]
    "2025-04-09" "short" "key" Demo.empty_window =
  {| App.prompt_w := "";
     App.output_w := "";
     App.dialogs := [Ui.ShowError (Ui.StrOf (RuntimeError "Not a Git repository."))] |}.
Proof.
  pose proof (gather_diffs_not_a_repository Demo.sample_world "/tmp"
                (InvalidGitRepositoryError "/tmp") eq_refl) as (_ & Hg & Hw).
  split.
  - exact (Hg "/tmp" eq_refl ["main"] Demo.april_9).
  - exact (Hw Demo.offline Demo.sample_platform ["main"] "2025-04-09" Demo.april_9
              "short" "key" Demo.empty_window eq_refl).
Defined.

(** C9, as it is written, at a path where nothing exists: the
    [NoSuchPathError] of [Repo] leaves [list_branches] too. *)
Lemma list_branches_missing_path :
  (forall r, Repo Demo.sample_world "/nowhere" <> Ok r) /\
  list_branches Demo.sample_world "/nowhere" = Raise (NoSuchPathError "/nowhere") /\
  list_branches Demo.sample_world "/nowhere" <> Ok [].
Proof. repeat split; [intros r|]; discriminate. Qed.

(** C9, amended: where [Repo(path)] raises [InvalidGitRepositoryError],
    [list_branches] returns the empty list and [gather_diffs] raises; any
    other exception of [Repo(path)] leaves both of them. *)
Theorem list_branches_not_a_repository (w : world) (path : string) (e : exn) :
  Repo w path = Raise e ->
  list_branches w path =
    match e with
    | InvalidGitRepositoryError _ => Ok []
    | _ => Raise e
    end /\
  forall B D, is_ok (gather_diffs w path B D) = false.
Proof.
  intros He. split.
  - unfold list_branches. rewrite He. destruct e; reflexivity.
  - intros B D. unfold gather_diffs. rewrite He. destruct e; reflexivity.
Qed.

Lemma list_branches_not_a_repository_witness :
  list_branches Demo.sample_world "/tmp" = Ok [] /\
  is_ok (gather_diffs Demo.sample_world "/tmp" [] Demo.april_9) = false.
Proof.
  pose proof (list_branches_not_a_repository Demo.sample_world "/tmp"
                (InvalidGitRepositoryError "/tmp") eq_refl) as (Hl & Hg).
  split; [exact Hl|exact (Hg [] Demo.april_9)].
Defined.

End GitClaims.

(** ** The Gemini call *)

Module GeminiFacts.
Import Str Json Gemini GeminiSpec ResultFacts.

Lemma get_ok (v : json) (k : string) (dflt x : json) :
  get v k dflt = Ok x <->
  exists o, v = JObj o /\
            x = match to_dict o !! k with Some y => y | None => dflt end.
Proof.
  split.
  - destruct v; simpl; try discriminate. intros H; injection H as <-. eauto.
  - intros (o & -> & ->). reflexivity.
Qed.

Lemma subscript_ok (v : json) (k : string) (x : json) :
  subscript v k = Ok x <-> exists o, v = JObj o /\ to_dict o !! k = Some x.
Proof.
  split.
  - destruct v; simpl; try discriminate. unfold lookup_key.
    destruct (to_dict items !! k) eqn:E; [|discriminate].
    intros H; injection H as <-. eauto.
  - intros (o & -> & H). simpl. unfold lookup_key. rewrite H. reflexivity.
Qed.

(** Only the first element of a non-empty list can be subscripted with a
    key afterwards. *)
Lemma subscript0_object (v : json) (o : list (string * json)) :
  subscript0 v = Ok (JObj o) <-> exists rest, v = JArr (JObj o :: rest).
Proof.
  split.
  - destruct v; simpl; try discriminate.
    + destruct (getitem (chars s) 0); discriminate.
    + destruct l as [|x rest]; [discriminate|].
      unfold getitem; simpl. intros H; injection H as ->. eauto.
  - intros (rest & ->). reflexivity.
Qed.

Lemma join_values_ok (sep : string) (items : list json) (joined : string) :
  join_values sep items = Ok joined <->
  exists strs, items = map JStr strs /\ joined = join sep strs.
Proof.
  unfold join_values. split.
  - intros H. apply bind_ok in H as (strs & Hm & H). injection H as <-.
    exists strs. split; [|reflexivity].
    apply mapM_ok in Hm. induction Hm as [|x s items strs Hx _ IH]; [reflexivity|].
    destruct x; try discriminate. injection Hx as ->. simpl. congruence.
  - intros (strs & -> & ->).
    rewrite (mapM_of_Forall2 _ _ strs); [reflexivity|].
    induction strs; simpl; constructor; auto.
Qed.

Lemma part_text_get (p : json) (t : string) :
  get p "text" (JStr "") = Ok (JStr t) <-> part_text p t.
Proof.
  rewrite get_ok. unfold part_text. split; intros (o & -> & H); exists o; (split; [reflexivity|]).
  - destruct (to_dict o !! "text") as [y|]; [left; congruence|right].
    split; congruence.
  - destruct H as [-> | [-> ->]]; reflexivity.
Qed.

Lemma texts_of_parts (ps : list json) (strs : list string) :
  mapM (fun p => get p "text" (JStr "")) ps = Ok (map JStr strs) <->
  Forall2 part_text ps strs.
Proof.
  split.
  - intros H. apply mapM_ok in H. revert strs H.
    induction ps as [|p ps IH]; intros strs H; inversion H as [|? y ? ys Hp Hrest Hps Hmap]; subst.
    + destruct strs; [constructor|discriminate].
    + destruct strs as [|t strs]; [discriminate|]. injection Hmap as -> ->.
      constructor; [apply part_text_get; exact Hp|apply IH; exact Hrest].
  - intros H. apply mapM_of_Forall2.
    induction H as [|p t ps strs Hp _ IH]; simpl; constructor; [apply part_text_get|]; auto.
Qed.

Lemma truthy_candidates (o : list (string * json)) (rest : list json) :
  truthy (JArr (JObj o :: rest)) = true.
Proof. reflexivity. Qed.

End GeminiFacts.

Module GeminiClaims.
Import Str Json Gemini GeminiSpec ResultFacts GeminiFacts.

(** C2, as it is written, fails in both of its halves.  A text fragment
    with blanks around it comes back without them, which is not the
    concatenation of the fragments; and a first candidate without content
    raises a [KeyError] although the transport worked, the status is 200
    and there is a candidate. *)
Lemma generate_with_gemini_strips_and_raises :
  (generate_with_gemini (Demo.reply Demo.padded_body) "prompt" "key" = Ok "Did X." /\
   "Did X." <> join "" [" Did X. "]) /\
  generate_with_gemini (Demo.reply Demo.blocked_body) "prompt" "key"
    = Raise (KeyError "content").
Proof. repeat split. discriminate. Qed.

(** C2, amended: [generate_with_gemini] raises the exception of the
    transport when the transport fails, an [HTTPError] when the status is
    400..599, and "No response from Gemini API." when the response has no
    candidates; it returns exactly when the transport worked, the status is
    outside 400..599 and the body is an object whose first candidate has
    [content.parts], each part an object whose [text], if any, is a
    string, and it then returns the concatenation of these fragments with
    the white space at both ends removed.  Every other response raises. *)
Theorem generate_with_gemini_outcome (post : transport) (prompt api_key : string) :
  let request := post (GEMINI_URL ++ "?key=" ++ api_key) (payload prompt) in
  (forall e, request = Raise e -> generate_with_gemini post prompt api_key = Raise e) /\
  (forall resp,
      request = Ok resp -> client_or_server_error resp ->
      generate_with_gemini post prompt api_key = Raise (HTTPError (status_code resp))) /\
  (forall resp body,
      request = Ok resp -> ~ client_or_server_error resp ->
      json_body resp = Ok body -> no_candidates body ->
      generate_with_gemini post prompt api_key
        = Raise (RuntimeError "No response from Gemini API.")) /\
  (forall out,
      generate_with_gemini post prompt api_key = Ok out <->
      exists resp body parts texts,
        request = Ok resp /\ ~ client_or_server_error resp /\
        json_body resp = Ok body /\
        first_candidate_parts body parts /\
        fragments parts texts /\
        out = strip (join "" texts)).
Proof.
  intros request. unfold generate_with_gemini. fold request.
  assert (Hst : forall resp,
             raise_for_status resp =
             if (400 <=? status_code resp) && (status_code resp <? 600)
             then Raise (HTTPError (status_code resp)) else Ok tt) by reflexivity.
  assert (Hce : forall resp,
             client_or_server_error resp <->
             (400 <=? status_code resp) && (status_code resp <? 600) = true).
  { intros resp. unfold client_or_server_error.
    rewrite andb_true_iff, Z.leb_le, Z.ltb_lt. reflexivity. }
  split; [|split; [|split]].
  - intros e ->. reflexivity.
  - intros resp -> Hc. simpl. rewrite Hst. apply Hce in Hc. rewrite Hc. reflexivity.
  - intros resp body -> Hc Hb (o & -> & Hno). simpl. rewrite Hst.
    destruct (_ && _) eqn:E; [exfalso; apply Hc, Hce, E|]. simpl.
    rewrite Hb. simpl. rewrite Hno. reflexivity.
  - intros out. split.
    + intros H.
      apply bind_ok in H as (resp & Hresp & H).
      apply bind_ok in H as ([] & Hs & H).
      apply bind_ok in H as (body & Hbody & H).
      apply bind_ok in H as (cands & Hcands & H).
      destruct (truthy cands) eqn:Ht; [|discriminate]. simpl in H.
      apply bind_ok in H as (first & Hfirst & H).
      apply bind_ok in H as (content & Hcontent & H).
      apply bind_ok in H as (parts & Hparts & H).
      apply bind_ok in H as (ps & Hps & H).
      apply bind_ok in H as (tj & Htj & H).
      apply bind_ok in H as (joined & Hj & H).
      injection H as <-.
      apply get_ok in Hcands as (o & -> & ->).
      apply subscript_ok in Hcontent as (fo & -> & Hcontent).
      apply subscript0_object in Hfirst as (rest & Hfirst).
      apply subscript_ok in Hparts as (co & -> & Hparts).
      apply join_values_ok in Hj as (texts & -> & ->).
      apply texts_of_parts in Htj.
      exists resp, (JObj o), parts, texts.
      split; [exact Hresp|]. split.
      { rewrite Hce, Hst in *. destruct (_ && _); [discriminate|]. discriminate. }
      split; [exact Hbody|]. split.
      { exists o, fo, rest, co. repeat split; auto.
        destruct (to_dict o !! "candidates"); [congruence|discriminate]. }
      split; [|reflexivity]. exists ps. auto.
    + intros (resp & body & parts & texts & Hresp & Hc & Hbody & Hfirst & (ps & Hps & Hfr) & ->).
      destruct Hfirst as (o & fo & rest & co & -> & Hcands & Hcontent & Hparts).
      rewrite Hresp. cbn [bind]. rewrite Hst.
      destruct (_ && _) eqn:E; [exfalso; apply Hc, Hce, E|]. cbn [bind].
      rewrite Hbody. cbn [bind].
      assert (H1 : get (JObj o) "candidates" (JArr []) = Ok (JArr (JObj fo :: rest)))
        by (apply get_ok; exists o; rewrite Hcands; auto).
      assert (H2 : subscript0 (JArr (JObj fo :: rest)) = Ok (JObj fo)) by reflexivity.
      assert (H3 : subscript (JObj fo) "content" = Ok (JObj co))
        by (apply subscript_ok; eauto).
      assert (H4 : subscript (JObj co) "parts" = Ok parts)
        by (apply subscript_ok; eauto).
      rewrite H1. cbn [bind truthy negb]. rewrite H2. cbn [bind].
      rewrite H3. cbn [bind]. rewrite H4. cbn [bind]. rewrite Hps. cbn [bind].
      apply texts_of_parts in Hfr. rewrite Hfr. cbn [bind].
      assert (Hj : join_values "" (map JStr texts) = Ok (join "" texts))
        by (apply join_values_ok; eauto).
      rewrite Hj. reflexivity.
Qed.

Lemma generate_with_gemini_outcome_witness :
  generate_with_gemini (Demo.reply Demo.padded_body) "prompt" "key" = Ok "Did X."
  /\ generate_with_gemini Demo.offline "prompt" "key"
     = Raise (RequestException "connection refused").
Proof.
  split.
  - apply (proj2 (proj2 (proj2
      (generate_with_gemini_outcome (Demo.reply Demo.padded_body) "prompt" "key")))).
    exists {| status_code := 200; json_body := Ok Demo.padded_body |},
      Demo.padded_body, (JArr [JObj [("text", JStr " Did X. ")]]), [" Did X. "].
    split; [reflexivity|]. split; [unfold client_or_server_error; simpl; lia|].
    split; [reflexivity|]. split.
    + exists [("candidates",
               JArr [JObj [("content",
                            JObj [("parts", JArr [JObj [("text", JStr " Did X. ")]])])]])],
        [("content", JObj [("parts", JArr [JObj [("text", JStr " Did X. ")]])])],
        [], [("parts", JArr [JObj [("text", JStr " Did X. ")]])].
      repeat split.
    + split; [|reflexivity]. exists [JObj [("text", JStr " Did X. ")]].
      split; [reflexivity|]. repeat constructor.
      exists [("text", JStr " Did X. ")]. split; [reflexivity|]. left. reflexivity.
  - apply (proj1 (generate_with_gemini_outcome Demo.offline "prompt" "key")).
    reflexivity.
Defined.

End GeminiClaims.

(** ** The settings store *)

Module SettingsFacts.
Import Json Ui Settings.

Lemma defaults_lookup (cwd k : string) :
  is_Some (defaults cwd !! k) <-> In k default_keys.
Proof.
  split.
  - intros [v Hv]. unfold defaults in Hv.
    repeat (rewrite lookup_insert in Hv; case_decide; [subst; simpl; tauto|]).
    rewrite lookup_empty in Hv. discriminate.
  - intros H. simpl in H.
    destruct H as [<- | [<- | [<- | [<- | [<- | []]]]]]; eexists; reflexivity.
Qed.

Lemma set_item_keeps (d d' : gmap string json) (k v : json) (key : string) :
  set_item d k v = Ok d' -> is_Some (d !! key) -> is_Some (d' !! key).
Proof.
  destruct k; simpl; intros H Hk; try (injection H as <-; exact Hk); try discriminate.
  injection H as <-. rewrite lookup_insert. case_decide; [eauto|exact Hk].
Qed.

Lemma update_pairs_keeps (l : list json) (d : gmap string json) (key : string) :
  is_Some (d !! key) -> is_Some (fst (update_pairs d l) !! key).
Proof.
  revert d; induction l as [|e l IH]; intros d Hk; simpl; [exact Hk|].
  destruct (as_pair e) as [[k v]|x]; simpl; [|exact Hk].
  destruct (set_item d k v) as [d'|x] eqn:Hs; [|exact Hk].
  apply IH. eapply set_item_keeps; eauto.
Qed.

(** [dict.update] removes no key. *)
Lemma update_keeps (d : gmap string json) (v : json) (key : string) :
  is_Some (d !! key) -> is_Some (fst (update d v) !! key).
Proof.
  intros Hk. unfold update.
  destruct v; simpl; try exact Hk.
  - apply update_pairs_keeps, Hk.
  - apply update_pairs_keeps, Hk.
  - rewrite lookup_union. destruct Hk as [x ->].
    destruct (to_dict items !! key); simpl; eauto.
Qed.

Lemma update_object (d : gmap string json) (items : list (string * json)) (k : string) :
  fst (update d (JObj items)) !! k =
  match to_dict items !! k with Some v => Some v | None => d !! k end.
Proof.
  simpl. rewrite lookup_union.
  destruct (to_dict items !! k), (d !! k); reflexivity.
Qed.

End SettingsFacts.

Module SettingsClaims.
Import Json Ui Settings SettingsFacts.

Section RoundTrip.

Variable C : codec.

(** What the program relies on from [json]: a dict that was dumped loads
    as a dict with the same items. *)
Hypothesis loads_dumps :
  forall d : gmap string json,
    exists items, loads C (dumps C d) = Ok (JObj items) /\ to_dict items = d.

(** C3: a preferences record that [save_config] has written to a file
    that can be written and read comes back from [load_config] as it
    was, with no warning; and a file whose text does not parse makes
    [load_config] return the default record and show the warning. *)
Theorem settings_round_trip (cwd : string) :
  (forall (f : config_file C) (cfg : gmap string json),
      preferences cfg ->
      write_error f = None -> read_error f = None ->
      load_config cwd (fst (save_config f cfg)) = (cfg, [])) /\
  (forall (f : config_file C) (t : text C) (e : exn),
      content f = Some t -> read_error f = None -> loads C t = Raise e ->
      load_config cwd f
        = (defaults cwd, [ShowWarning (Literal "Config corrupted — using defaults.")])).
Proof.
  split.
  - intros f cfg Hp Hw Hr.
    unfold save_config, write_text. rewrite Hw. simpl.
    unfold load_config, exists_, read_text. simpl. rewrite Hr. simpl.
    destruct (loads_dumps cfg) as (items & -> & Hitems). simpl.
    rewrite Hitems. f_equal.
    apply map_eq. intros k. rewrite lookup_union.
    destruct (cfg !! k) as [v|] eqn:Hk; destruct (defaults cwd !! k) as [v'|] eqn:Hd;
      try reflexivity.
    assert (Hin : In k default_keys) by (apply (defaults_lookup cwd); rewrite Hd; eauto).
    destruct (Hp k Hin) as [x Hx]. congruence.
  - intros f t e Hc Hr He.
    unfold load_config, exists_, read_text. rewrite Hc, Hr. simpl. rewrite He.
    reflexivity.
Qed.

End RoundTrip.

Lemma plain_codec_loads_dumps (d : gmap string json) :
  exists items,
    loads Demo.plain_codec (dumps Demo.plain_codec d) = Ok (JObj items) /\ to_dict items = d.
Proof. exists (map_to_list d). split; [reflexivity|apply list_to_map_to_list]. Defined.

Lemma saved_settings_preferences : preferences Demo.saved_settings.
Proof.
  intros k Hk. simpl in Hk.
  destruct Hk as [<- | [<- | [<- | [<- | [<- | []]]]]]; eexists; reflexivity.
Defined.

Lemma settings_round_trip_witness :
  load_config "/repo" (fst (save_config Demo.fresh_file Demo.saved_settings))
    = (Demo.saved_settings, []).
Proof.
  apply (proj1 (settings_round_trip Demo.plain_codec plain_codec_loads_dumps "/repo")).
  - exact saved_settings_preferences.
  - reflexivity.
  - reflexivity.
Defined.

(** C10: the record [load_config] returns has the five default keys,
    whatever the file holds; when the file holds an object, a key has the
    value the object gives it, a key the object lacks has its default, and
    a key only the object has is in the record too. *)
Theorem load_config_keys (C : codec) (cwd : string) (f : config_file C) :
  preferences (fst (load_config cwd f)) /\
  (forall t items,
      content f = Some t -> read_error f = None -> loads C t = Ok (JObj items) ->
      forall k,
        fst (load_config cwd f) !! k =
        match to_dict items !! k with
        | Some v => Some v
        | None => defaults cwd !! k
        end) /\
  (content f = None -> load_config cwd f = (defaults cwd, [])).
Proof.
  split; [|split].
  - intros k Hk. apply (defaults_lookup cwd) in Hk.
    unfold load_config. destruct (exists_ f); [|exact Hk].
    destruct (let* t := read_text f in loads C t) as [v|e]; [|exact Hk].
    pose proof (update_keeps (defaults cwd) v k Hk) as Hu.
    destruct (update (defaults cwd) v) as [cfg' [x|]]; exact Hu.
  - intros t items Hc Hr Hl k.
    unfold load_config, exists_, read_text. rewrite Hc, Hr. simpl. rewrite Hl.
    apply (update_object (defaults cwd) items k).
  - intros Hc. unfold load_config, exists_. rewrite Hc. reflexivity.
Qed.

Lemma load_config_keys_witness :
  fst (load_config "/home" (fst (save_config Demo.fresh_file Demo.saved_settings))) !! "api_key"
    = Some (JStr "secret") /\
  fst (load_config "/home" (fst (save_config Demo.fresh_file Demo.saved_settings))) !! "date"
    = Some (JStr "2025-04-09").
Proof.
  pose proof (proj1 (proj2 (load_config_keys Demo.plain_codec "/home"
                              (fst (save_config Demo.fresh_file Demo.saved_settings))))
                Demo.saved_settings (map_to_list Demo.saved_settings)
                eq_refl eq_refl eq_refl) as H.
  split; [exact (H "api_key")|exact (H "date")].
Defined.

End SettingsClaims.

(** ** Strings *)

Module StrFacts.
Import Str PromptSpec.

Lemma append_cons (x : ascii) (a b : string) : String x a ++ b = String x (a ++ b).
Proof. reflexivity. Qed.

Lemma append_nil_l (b : string) : "" ++ b = b.
Proof. reflexivity. Qed.

Lemma append_assoc (a b c : string) : (a ++ b) ++ c = a ++ (b ++ c).
Proof.
  induction a as [|x a IH]; [reflexivity|].
  rewrite !append_cons, IH. reflexivity.
Qed.

Lemma append_nil_r (a : string) : a ++ "" = a.
Proof.
  induction a as [|x a IH]; [reflexivity|].
  rewrite append_cons, IH. reflexivity.
Qed.

Lemma prefix_nil (s : string) : String.prefix "" s = true.
Proof. destruct s; reflexivity. Qed.

Lemma prefix_append (sep s : string) : String.prefix sep (sep ++ s) = true.
Proof.
  induction sep as [|x sep IH]; [apply prefix_nil|].
  rewrite append_cons. simpl.
  destruct (ascii_dec x x); [exact IH|contradiction].
Qed.

Lemma prefix_has_char (c : ascii) (t s : string) :
  String.prefix (String c t) s = true -> has_char c s = true.
Proof.
  destruct s as [|a s]; simpl; [discriminate|].
  destruct (ascii_dec c a) as [->|]; [|discriminate].
  intros _. rewrite Ascii.eqb_refl. reflexivity.
Qed.

Lemma has_char_append (c : ascii) (a b : string) :
  has_char c (a ++ b) = has_char c a || has_char c b.
Proof.
  induction a as [|x a IH]; [reflexivity|].
  rewrite append_cons. simpl. rewrite IH, orb_assoc. reflexivity.
Qed.

(** A string without the first character of the separator is one piece. *)
Lemma split_go_without_first (c : ascii) (t s : string) :
  has_char c s = false -> split_go (String c t) 0 s = [s].
Proof.
  induction s as [|a s IH]; intros H; [reflexivity|].
  assert (Hp : String.prefix (String c t) (String a s) = false).
  { destruct (String.prefix (String c t) (String a s)) eqn:E; [|reflexivity].
    apply prefix_has_char in E. congruence. }
  simpl in H. apply orb_false_iff in H as [_ H].
  cbn [split_go]. rewrite Hp, (IH H). reflexivity.
Qed.

Lemma split_go_skip (sep a s : string) :
  split_go sep (String.length a) (a ++ s) = split_go sep 0 s.
Proof.
  induction a as [|x a IH]; [reflexivity|].
  rewrite append_cons. simpl. exact IH.
Qed.

(** At an occurrence of the separator the piece ends and the scan goes on
    behind the occurrence. *)
Lemma split_go_match (c : ascii) (t s : string) :
  split_go (String c t) 0 (String c t ++ s) = "" :: split_go (String c t) 0 s.
Proof.
  pose proof (prefix_append (String c t) s) as Hp.
  rewrite append_cons in *.
  cbn [split_go]. rewrite Hp.
  replace (String.length (String c t) - 1)%nat with (String.length t)
    by (simpl; lia).
  rewrite split_go_skip. reflexivity.
Qed.

Lemma split_go_nonempty (sep : string) (s : string) (k : nat) : split_go sep k s <> [].
Proof.
  revert k; induction s as [|a s IH]; intros k; [discriminate|].
  cbn [split_go]. destruct k; [|apply IH].
  destruct (String.prefix sep (String a s)); [discriminate|].
  destruct (split_go sep 0 s); discriminate.
Qed.

Lemma split_go_before (sep x tail : string) :
  no_start sep x tail = true ->
  split_go sep 0 (x ++ tail) =
  match split_go sep 0 tail with
  | p :: ps => (x ++ p) :: ps
  | [] => [x]
  end.
Proof.
  induction x as [|a x IH]; intros H.
  - rewrite append_nil_l.
    destruct (split_go sep 0 tail) eqn:E; [|reflexivity].
    destruct (split_go_nonempty _ _ _ E).
  - cbn [no_start] in H. apply andb_true_iff in H as [Hp Hx].
    apply negb_true_iff in Hp.
    rewrite append_cons in *.
    cbn [split_go]. rewrite Hp, (IH Hx).
    destruct (split_go sep 0 tail); reflexivity.
Qed.

Lemma no_start_append (sep x1 x2 tail : string) :
  no_start sep (x1 ++ x2) tail = no_start sep x1 (x2 ++ tail) && no_start sep x2 tail.
Proof.
  induction x1 as [|a x1 IH]; [reflexivity|].
  rewrite append_cons. cbn [no_start]. rewrite IH.
  rewrite <- append_cons, append_assoc, andb_assoc. reflexivity.
Qed.

Lemma no_start_without_first (c : ascii) (t x tail : string) :
  has_char c x = false -> no_start (String c t) x tail = true.
Proof.
  induction x as [|a x IH]; intros H; [reflexivity|].
  cbn [has_char] in H. apply orb_false_iff in H as [Ha Hx].
  cbn [no_start]. rewrite (IH Hx), andb_true_r.
  apply negb_true_iff. rewrite append_cons. simpl.
  destruct (ascii_dec c a) as [->|]; [|reflexivity].
  rewrite Ascii.eqb_refl in Ha. discriminate.
Qed.

(** A prefix of [a ++ b] is a prefix of [a] or goes on into [b]. *)
Lemma prefix_append_cases (sep a b : string) :
  String.prefix sep (a ++ b) = true ->
  String.prefix sep a = true \/ exists r, sep = a ++ r /\ String.prefix r b = true.
Proof.
  revert sep; induction a as [|x a IH]; intros sep H.
  - right. exists sep. auto.
  - destruct sep as [|y sep]; [left; apply prefix_nil|].
    rewrite append_cons in H.
    simpl in *. destruct (ascii_dec y x) as [->|]; [|discriminate].
    destruct (IH sep H) as [Hl | (r & -> & Hr)]; [left; exact Hl|].
    right. exists r. auto.
Qed.

Lemma prefix_refl (s : string) : String.prefix s s = true.
Proof. rewrite <- (append_nil_r s) at 2. apply prefix_append. Qed.

(** A separator that does not occur in [x] and does not have the character
    that follows [x] starts nowhere within [x]. *)
Lemma no_start_inside (sep x : string) (c : ascii) (rest : string) :
  contains sep x = false -> has_char c sep = false ->
  no_start sep x (String c rest) = true.
Proof.
  intros Hx Hc. induction x as [|a x IH]; [reflexivity|].
  cbn [contains] in Hx. apply orb_false_iff in Hx as [Hp Hx].
  cbn [no_start]. rewrite (IH Hx), andb_true_r. apply negb_true_iff.
  destruct (String.prefix sep (String a x ++ String c rest)) eqn:E; [|reflexivity].
  apply prefix_append_cases in E as [E | (r & -> & Hr)]; [congruence|].
  destruct r as [|c' r].
  - rewrite append_nil_r, prefix_refl in Hp. discriminate.
  - simpl in Hr. destruct (ascii_dec c' c) as [->|]; [|discriminate].
    rewrite has_char_append in Hc. simpl in Hc.
    rewrite Ascii.eqb_refl, orb_true_r in Hc. discriminate.
Qed.

Lemma contains_prefix (sub s : string) :
  String.prefix sub s = true -> contains sub s = true.
Proof. intros H. destruct s; cbn [contains]; rewrite H; reflexivity. Qed.

Lemma contains_append (sub a b : string) : contains sub (a ++ sub ++ b) = true.
Proof.
  induction a as [|x a IH].
  - rewrite append_nil_l. apply contains_prefix, prefix_append.
  - rewrite append_cons.
    cbn [contains]. rewrite IH. apply orb_true_r.
Qed.

End StrFacts.

(** ** The prompt builder *)

Module PromptFacts.
Import Str DateTime Prompt PromptSpec StrFacts.

Lemma style_cases (style directive : string) :
  sentence_map !! style = Some directive ->
  (style = "short" /\ directive = "Use 2–3 sentences.") \/
  (style = "medium" /\ directive = "Use 4–5 sentences.") \/
  (style = "long" /\ directive = "Use 6–8 sentences.").
Proof.
  unfold sentence_map. intros H.
  rewrite lookup_insert in H. case_decide; [left; split; congruence|].
  rewrite lookup_insert in H. case_decide; [right; left; split; congruence|].
  rewrite lookup_insert in H. case_decide; [right; right; split; congruence|].
  rewrite lookup_empty in H. discriminate.
Qed.

Lemma digit_cases (n : Z) :
  In (digit n) ["0"; "1"; "2"; "3"; "4"; "5"; "6"; "7"; "8"; "9"]%char.
Proof.
  unfold digit. pose proof (Z.mod_pos_bound n 10 eq_refl) as Hb.
  assert (H : n mod 10 = 0 \/ n mod 10 = 1 \/ n mod 10 = 2 \/ n mod 10 = 3 \/
              n mod 10 = 4 \/ n mod 10 = 5 \/ n mod 10 = 6 \/ n mod 10 = 7 \/
              n mod 10 = 8 \/ n mod 10 = 9) by lia.
  simpl.
  repeat (destruct H as [-> | H]; [tauto|]). rewrite H. tauto.
Qed.

Lemma digit_not_U (n : Z) : Ascii.eqb "U" (digit n) = false.
Proof.
  pose proof (digit_cases n) as H. simpl in H.
  repeat (destruct H as [<- | H]; [reflexivity|]). contradiction.
Qed.

Lemma pad2_no_U (n : Z) : has_char "U" (pad2 n) = false.
Proof. unfold pad2. cbn [has_char]. rewrite !digit_not_U. reflexivity. Qed.

Lemma pad4_no_U (n : Z) : has_char "U" (pad4 n) = false.
Proof.
unfold pad4, pad2. cbn [has_char]. rewrite !digit_not_U. reflexivity.
Qed.

Lemma month_name_no_U (m : Z) : has_char "U" (month_name m) = false.
Proof.
  destruct m as [|p|p]; try reflexivity.
  do 5 (try destruct p as [p|p|]); reflexivity.
Qed.

Lemma strftime_long_no_U (d : date) : has_char "U" (strftime_long d) = false.
Proof.
  unfold strftime_long.
  rewrite !has_char_append, month_name_no_U, pad2_no_U, pad4_no_U. reflexivity.
Qed.

Lemma strftime_dmy_no_U (d : date) : has_char "U" (strftime_dmy d) = false.
Proof.
  unfold strftime_dmy.
  rewrite !has_char_append, !pad2_no_U, pad4_no_U. reflexivity.
Qed.

Lemma header_after_no_U (d : date) : has_char "U" (header_after d) = false.
Proof.
  unfold header_after. rewrite !has_char_append, strftime_dmy_no_U. reflexivity.
Qed.

(** The header is the text before the directive, the directive, and the
    text after it. *)
Lemma build_template_parts (project : string) (d : date) (style directive : string) :
  sentence_map !! style = Some directive ->
  build_template project d style =
  Ok (header_before project d style ++ directive ++ header_after d).
Proof.
  intros H. unfold build_template, lookup_key. rewrite H. cbn [bind].
  unfold header_before, header_after. rewrite !append_assoc. reflexivity.
Qed.

Lemma header_before_project (project : string) (d : date) (style : string) :
  header_before project d style = before_project style ++ project ++ after_project d.
Proof.
  unfold header_before, before_project, after_project.
  rewrite !append_assoc. reflexivity.
Qed.

Lemma after_project_no_U (d : date) : has_char "U" (after_project d) = false.
Proof.
  unfold after_project. rewrite !has_char_append, strftime_long_no_U. reflexivity.
Qed.

(** A project name without the directive puts no occurrence of the
    directive into the text before it. *)
Lemma header_before_no_start (project : string) (d : date) (style directive tail : string) :
  sentence_map !! style = Some directive ->
  contains directive project = false ->
  no_start directive (header_before project d style) tail = true.
Proof.
  intros Hs Hp. rewrite header_before_project, !no_start_append.
  pose proof (after_project_no_U d) as HQ.
  assert (Hnl : exists rest, after_project d ++ tail = String (ascii_of_nat 10) rest).
  { unfold after_project, nl. rewrite append_cons. eauto. }
  destruct Hnl as [rest Hnl]. rewrite Hnl.
  destruct (style_cases _ _ Hs) as [[-> ->] | [[-> ->] | [-> ->]]];
    (rewrite no_start_without_first by reflexivity);
    (rewrite no_start_inside by (try exact Hp; reflexivity));
    (rewrite no_start_without_first by exact HQ); reflexivity.
Qed.

Lemma split_header (project : string) (d : date) (style directive : string) :
  sentence_map !! style = Some directive ->
  contains directive project = false ->
  split (header_before project d style ++ directive ++ header_after d) directive =
  Ok [header_before project d style; header_after d].
Proof.
  intros Hs Hp.
  pose proof (header_before_no_start project d style directive
                (directive ++ header_after d) Hs Hp) as Hn.
  pose proof (header_after_no_U d) as Ha.
  destruct (style_cases _ _ Hs) as [[-> ->] | [[-> ->] | [-> ->]]];
    unfold split; rewrite (split_go_before _ _ _ Hn), split_go_match,
      (split_go_without_first _ _ _ Ha), append_nil_r; reflexivity.
Qed.

(** Where the project name does not contain the directive,
    [build_full_prompt] is the header with the diffs block put in before
    the directive. *)
Lemma build_full_prompt_splice (diffs : list string) (project : string) (d : date)
    (style directive : string) :
  sentence_map !! style = Some directive ->
  contains directive project = false ->
  build_full_prompt diffs project d style =
  Ok (spliced project d style directive (diffs_block diffs)).
Proof.
  intros Hs Hp. unfold build_full_prompt.
  rewrite (build_template_parts _ _ _ _ Hs). cbn [bind].
  unfold lookup_key. rewrite Hs. cbn [bind].
  rewrite (split_header _ _ _ _ Hs Hp). reflexivity.
Qed.

Lemma diffs_block_cases (diffs : list string) :
  (diffs = [] -> diffs_block diffs = "No code changes today.") /\
  (diffs <> [] -> diffs_block diffs = join (nl ++ nl) diffs).
Proof.
  split; [intros ->; reflexivity|].
  destruct diffs; [contradiction|reflexivity].
Qed.

Lemma contains_middle (sub s a b : string) :
  s = a ++ sub ++ b -> contains sub s = true.
Proof. intros ->. apply contains_append. Qed.

(** The header has the project name, both forms of the date and the
    directive of the style, whatever the project name is. *)
Lemma build_template_contains (project : string) (d : date) (style directive : string) :
  sentence_map !! style = Some directive ->
  exists header,
    build_template project d style = Ok header /\
    contains project header = true /\
    contains (strftime_long d) header = true /\
    contains (strftime_dmy d) header = true /\
    contains directive header = true.
Proof.
  intros Hs. exists (header_before project d style ++ directive ++ header_after d).
  split; [apply build_template_parts, Hs|].
  split; [|split; [|split]].
  - apply (contains_middle _ _ (before_project style)
             (after_project d ++ directive ++ header_after d)).
    rewrite header_before_project, !append_assoc. reflexivity.
  - apply (contains_middle _ _ (before_project style ++ project ++ nl ++ "Date: ")
             (nl ++ nl ++ "Here are the detailed code diffs for today:" ++ nl ++ nl ++
              directive ++ header_after d)).
    rewrite header_before_project. unfold after_project.
    rewrite !append_assoc. reflexivity.
  - apply (contains_middle _ _
             (header_before project d style ++ directive ++
              nl ++ nl ++ "Generate a status in the exact format of the examples below:" ++
              nl ++ nl ++ example ++ nl ++ nl ++ "Now write only the entry for ") ":").
    unfold header_after. rewrite !append_assoc. reflexivity.
  - apply (contains_middle _ _ (header_before project d style) (header_after d)).
    reflexivity.
Qed.

(** Where the project name does not contain the directive, the full prompt
    has the project name, both forms of the date, the directive and the
    diffs block. *)
Lemma build_full_prompt_contains (diffs : list string) (project : string) (d : date)
    (style directive : string) :
  sentence_map !! style = Some directive ->
  contains directive project = false ->
  exists out,
    build_full_prompt diffs project d style = Ok out /\
    contains project out = true /\
    contains (strftime_long d) out = true /\
    contains (strftime_dmy d) out = true /\
    contains directive out = true /\
    contains (diffs_block diffs) out = true.
Proof.
  intros Hs Hp. exists (spliced project d style directive (diffs_block diffs)).
  split; [apply build_full_prompt_splice; assumption|].
  unfold spliced. repeat split.
  - apply (contains_middle _ _ (before_project style)
             (after_project d ++ diffs_block diffs ++ nl ++ nl ++ directive ++ header_after d)).
    rewrite header_before_project, !append_assoc. reflexivity.
  - apply (contains_middle _ _ (before_project style ++ project ++ nl ++ "Date: ")
             (nl ++ nl ++ "Here are the detailed code diffs for today:" ++ nl ++ nl ++
              diffs_block diffs ++ nl ++ nl ++ directive ++ header_after d)).
    rewrite header_before_project. unfold after_project.
    rewrite !append_assoc. reflexivity.
  - apply (contains_middle _ _
             (header_before project d style ++ diffs_block diffs ++ nl ++ nl ++ directive ++
              nl ++ nl ++ "Generate a status in the exact format of the examples below:" ++
              nl ++ nl ++ example ++ nl ++ nl ++ "Now write only the entry for ") ":").
    unfold header_after. rewrite !append_assoc. reflexivity.
  - apply (contains_middle _ _
             (header_before project d style ++ diffs_block diffs ++ nl ++ nl)
             (header_after d)).
    rewrite !append_assoc. reflexivity.
  - apply (contains_middle _ _ (header_before project d style)
             (nl ++ nl ++ directive ++ header_after d)).
    reflexivity.
Qed.

End PromptFacts.

Module PromptClaims.
Import Str DateTime Prompt PromptSpec StrFacts PromptFacts.

(** C4, at the project name "Use 2–3 sentences." with style [short]: the
    header has the directive twice, [split] cuts it at the one in the
    project name, and [build_full_prompt] keeps the first two pieces only.
    The diffs block lands behind "Project: ", and the header from the
    directive on, with the examples and the closing instruction, is gone. *)
Theorem build_full_prompt_cuts_header :
  build_template Demo.directive_name Demo.april_9 "short"
    = Ok (header_before Demo.directive_name Demo.april_9 "short" ++
          "Use 2–3 sentences." ++ header_after Demo.april_9) /\
  build_full_prompt [] Demo.directive_name Demo.april_9 "short" = Ok Demo.cut_prompt /\
  Demo.cut_prompt
    <> spliced Demo.directive_name Demo.april_9 "short" "Use 2–3 sentences." (diffs_block []) /\
  contains (header_after Demo.april_9) Demo.cut_prompt = false /\
  contains "Now write only the entry for" Demo.cut_prompt = false.
Proof.
  split; [reflexivity|]. split; [reflexivity|]. split; [|split; reflexivity].
  apply String.eqb_neq. reflexivity.
Qed.

(** C5, at a project name that is the directive of style [short] twice,
    with no diffs: the full prompt ends at the directive and has neither
    the project name nor the date, in either form. *)
Theorem build_full_prompt_loses_name_and_date :
  build_full_prompt [] Demo.doubled_name Demo.april_9 "short" = Ok Demo.short_prompt /\
  contains Demo.doubled_name Demo.short_prompt = false /\
  contains (strftime_long Demo.april_9) Demo.short_prompt = false /\
  contains (strftime_dmy Demo.april_9) Demo.short_prompt = false /\
  contains "Use 2–3 sentences." Demo.short_prompt = true.
Proof. repeat split; reflexivity. Qed.

End PromptClaims.

(** ** More on diff collection *)

Module GitMoreFacts.
Import Str DateTime Git GitSpec Calendar ResultFacts GitFacts.

Lemma fromtimestamp_clock (off : Z -> Z) (ts : Z) (cd : datetime) :
  fromtimestamp off ts = Ok cd ->
  0 <= dt_hour cd <= 23 /\ 0 <= dt_minute cd <= 59 /\ 0 <= dt_second cd <= 59 /\
  dt_microsecond cd = 0.
Proof.
  unfold fromtimestamp.
  destruct (civil_from_days _) as [[y m] d].
  destruct (_ && _); [|discriminate].
  intros H; injection H as <-. simpl.
  pose proof (Z.mod_pos_bound (ts + off ts) 86400 eq_refl) as Hs.
  set (sod := (ts + off ts) mod 86400) in *.
  pose proof (Z.mod_pos_bound sod 3600 eq_refl) as Hm.
  pose proof (Z.mod_pos_bound sod 60 eq_refl) as Hsec.
  assert (0 <= sod / 3600 <= 23)
    by (split; [apply Z.div_pos; lia | apply Z.lt_succ_r, Z.div_lt_upper_bound; lia]).
  assert (0 <= sod mod 3600 / 60 <= 59)
    by (split; [apply Z.div_pos; lia | apply Z.lt_succ_r, Z.div_lt_upper_bound; lia]).
  lia.
Qed.

Lemma lex_le_cons (x y : Z) (a b : list Z) :
  lex_le (x :: a) (y :: b) = true <-> x < y \/ (x = y /\ lex_le a b = true).
Proof.
  simpl. rewrite orb_true_iff, andb_true_iff, Z.ltb_lt, Z.eqb_eq. reflexivity.
Qed.

(** A time of day is within the window of a date exactly when it is on that
    date. *)
Lemma within_day_same_date (d : date) (cd : datetime) :
  0 <= dt_hour cd <= 23 -> 0 <= dt_minute cd <= 59 -> 0 <= dt_second cd <= 59 ->
  dt_microsecond cd = 0 ->
  within_day d cd = same_date cd d.
Proof.
  intros Hh Hm Hs Hus. apply eq_true_iff_eq.
  unfold within_day, same_date, day_start, day_end, le, fields, combine.
  destruct cd as [y m dd h mi s us], d as [Y M D].
  simpl in Hh, Hm, Hs, Hus. subst us. cbn -[lex_le Z.eqb].
  rewrite !andb_true_iff, !lex_le_cons, !Z.eqb_eq.
  change (lex_le [] []) with true.
  intuition lia.
Qed.

Lemma mapM_raises {A B : Type} (f : A -> result B) (l : list A) (x : A) :
  In x l -> is_ok (f x) = false -> is_ok (Json.mapM f l) = false.
Proof.
  induction l as [|y l IH]; simpl; [contradiction|].
  intros [-> | Hin] Hx.
  - destruct (f x); [discriminate|reflexivity].
  - destruct (f y); [|reflexivity]. simpl.
    specialize (IH Hin Hx). destruct (Json.mapM f l); [discriminate|reflexivity].
Qed.

Lemma traversal_diffs_raises (w : world) (r : repo) (d : date) (br : string)
    (commits : list commit) (c : commit) (cd : datetime) :
  In c commits ->
  fromtimestamp (utcoffset w) (committed_date c) = Ok cd ->
  within_day d cd = true ->
  is_ok (patch_of r c) = false ->
  is_ok (traversal_diffs w r d br commits) = false.
Proof.
  induction commits as [|c' rest IH]; simpl; [contradiction|].
  intros [-> | Hin] Hcd Hw Hp.
  - rewrite Hcd. simpl. rewrite Hw.
    destruct (patch_of r c); [discriminate|reflexivity].
  - specialize (IH Hin Hcd Hw Hp).
    destruct (fromtimestamp (utcoffset w) (committed_date c')) as [cd'|]; [|reflexivity].
    simpl. destruct (within_day d cd'); [|exact IH].
    destruct (patch_of r c'); [|reflexivity]. simpl.
    destruct (traversal_diffs w r d br rest); [discriminate|reflexivity].
Qed.

Lemma traversal_diffs_none (w : world) (r : repo) (d : date) (br : string)
    (commits : list commit) :
  Forall (fun c => exists cd,
              fromtimestamp (utcoffset w) (committed_date c) = Ok cd /\
              within_day d cd = false) commits ->
  traversal_diffs w r d br commits = Ok [].
Proof.
  induction 1 as [|c rest (cd & Hcd & Hw) _ IH]; simpl; [reflexivity|].
  rewrite Hcd. simpl. rewrite Hw. exact IH.
Qed.

End GitMoreFacts.

Module GitExtras.
Import Str DateTime Git GitSpec Calendar ResultFacts GitFacts GitMoreFacts.

(** X1: the entries [gather_diffs] returns are those of the commits of the
    branches read whose commit time, in local time, falls on the date [D]:
    the window test of the loop is a test of the calendar day. *)
Theorem gather_diffs_same_date (w : world) (path : string) (B : list string) (D : date)
    (diffs : list string) :
  gather_diffs w path B D = Ok diffs ->
  exists r bs,
    Repo w path = Ok r /\ requested r B = Ok bs /\
    forall e, In e diffs <->
      exists br commits c cd patch,
        In br bs /\ iter_commits r br = Ok commits /\ In c commits /\
        fromtimestamp (utcoffset w) (committed_date c) = Ok cd /\
        same_date cd D = true /\
        patch_of r c = Ok patch /\ e = entry br c patch.
Proof.
  intros H. destruct (gather_diffs_In _ _ _ _ _ H) as (r & bs & Hr & Hbs & Hin).
  exists r, bs. split; [exact Hr|]. split; [exact Hbs|].
  intros e. rewrite Hin. split.
  - intros (br & c & patch & Hbr & (commits & cd & Hit & Hc & Hcd & Hw & Hp) & ->).
    exists br, commits, c, cd, patch.
    destruct (fromtimestamp_clock _ _ _ Hcd) as (Hh & Hm & Hs & Hus).
    rewrite <- (within_day_same_date D cd Hh Hm Hs Hus). auto 10.
  - intros (br & commits & c & cd & patch & Hbr & Hit & Hc & Hcd & Hw & Hp & ->).
    exists br, c, patch. split; [exact Hbr|]. split; [|reflexivity].
    exists commits, cd.
    destruct (fromtimestamp_clock _ _ _ Hcd) as (Hh & Hm & Hs & Hus).
    rewrite (within_day_same_date D cd Hh Hm Hs Hus). auto.
Qed.

Lemma gather_diffs_same_date_witness :
  exists r bs,
    Repo Demo.sample_world "/repo" = Ok r /\ requested r ["dev"] = Ok bs /\
    forall e,
      In e ["Commit 2a3b4c5 on dev:" ++ nl ++ "diff 1f0e9d8c7b6a 2a3b4c5d6e7f";
            "Commit 1f0e9d8 on dev:" ++ nl ++ "show 1f0e9d8c7b6a"] <->
      exists br commits c cd patch,
        In br bs /\ iter_commits r br = Ok commits /\ In c commits /\
        fromtimestamp (utcoffset Demo.sample_world) (committed_date c) = Ok cd /\
        same_date cd Demo.april_9 = true /\
        patch_of r c = Ok patch /\ e = entry br c patch.
Proof.
  apply (gather_diffs_same_date Demo.sample_world "/repo" ["dev"] Demo.april_9).
  reflexivity.
Defined.

(** X2: [gather_diffs] gives all or nothing.  It raises when one of the
    branches asked for does not resolve, and when the patch of one selected
    commit cannot be produced, whatever the other branches and commits
    gave. *)
Theorem gather_diffs_all_or_nothing (w : world) (path : string) (B : list string)
    (D : date) (r : repo) (br : string) :
  Repo w path = Ok r ->
  In br B ->
  (is_ok (iter_commits r br) = false \/
   exists commits c cd,
     iter_commits r br = Ok commits /\ In c commits /\
     fromtimestamp (utcoffset w) (committed_date c) = Ok cd /\
     same_date cd D = true /\
     is_ok (patch_of r c) = false) ->
  is_ok (gather_diffs w path B D) = false.
Proof.
  intros Hr Hbr Hfail. rewrite gather_diffs_unfold. unfold open. rewrite Hr. simpl.
  destruct B as [|b B]; [contradiction|]. simpl.
  assert (Hb : is_ok (branch_diffs w r D br) = false).
  { unfold branch_diffs.
    destruct Hfail as [Hit | (commits & c & cd & Hit & Hc & Hcd & Hw & Hp)].
    - destruct (iter_commits r br); [discriminate|reflexivity].
    - rewrite Hit. simpl.
      destruct (fromtimestamp_clock _ _ _ Hcd) as (Hh & Hm & Hs & Hus).
      rewrite <- (within_day_same_date D cd Hh Hm Hs Hus) in Hw.
      eapply traversal_diffs_raises; eauto. }
  pose proof (mapM_raises (branch_diffs w r D) (b :: B) br Hbr Hb) as HM.
  simpl in HM.
  destruct (let* y := branch_diffs w r D b in
            let* ys := Json.mapM (branch_diffs w r D) B in Ok (y :: ys));
    [discriminate|reflexivity].
Qed.

Lemma gather_diffs_all_or_nothing_witness :
  is_ok (gather_diffs Demo.sample_world "/repo" ["main"; "release"] Demo.april_9) = false /\
  is_ok (gather_diffs DemoForm.detached_world "/repo" ["main"] (mkdate 2025 4 10)) = false.
Proof.
  split.
  - apply (gather_diffs_all_or_nothing Demo.sample_world "/repo" ["main"; "release"]
             Demo.april_9 Demo.sample_repo "release").
    + reflexivity.
    + right. left. reflexivity.
    + left. reflexivity.
  - apply (gather_diffs_all_or_nothing DemoForm.detached_world "/repo" ["main"]
             (mkdate 2025 4 10) DemoForm.detached_repo "main").
    + reflexivity.
    + left. reflexivity.
    + right. exists [Demo.third_commit; Demo.second_commit; Demo.root_commit],
               Demo.second_commit, (mkdatetime 2025 4 10 1 59 59 0).
      split; [reflexivity|]. split; [right; left; reflexivity|].
      split; [reflexivity|]. split; reflexivity.
Defined.

(** X3: on a day on which none of the commits of the branches read was
    made, [gather_diffs] returns the empty list; it asks for no patch, so it
    does so even where [git diff] and [git show] would fail. *)
Theorem gather_diffs_quiet_day (w : world) (path : string) (B : list string) (D : date)
    (r : repo) (bs : list string) :
  Repo w path = Ok r ->
  requested r B = Ok bs ->
  Forall (fun br => exists commits,
              iter_commits r br = Ok commits /\
              Forall (fun c => exists cd,
                          fromtimestamp (utcoffset w) (committed_date c) = Ok cd /\
                          same_date cd D = false) commits) bs ->
  gather_diffs w path B D = Ok [].
Proof.
  intros Hr Hbs Hall. rewrite gather_diffs_unfold. unfold open.
  rewrite Hr. cbn [bind]. rewrite Hbs. cbn [bind]. clear Hbs.
  assert (HM : exists groups,
             Json.mapM (branch_diffs w r D) bs = Ok groups /\ concat groups = []).
  { induction Hall as [|br bs (commits & Hit & Hcs) _ (groups & Hg & Hc)].
    - exists []. split; reflexivity.
    - exists ([] :: groups). split; [|exact Hc].
      cbn [Json.mapM]. unfold branch_diffs at 1. rewrite Hit. cbn [bind].
      rewrite traversal_diffs_none.
      + cbn [bind]. rewrite Hg. reflexivity.
      + eapply Forall_impl; [exact Hcs|].
        intros c (cd & Hcd & Hsame). exists cd. split; [exact Hcd|].
        destruct (fromtimestamp_clock _ _ _ Hcd) as (Hh & Hm & Hs & Hus).
        rewrite (within_day_same_date D cd Hh Hm Hs Hus). exact Hsame. }
  destruct HM as (groups & -> & Hc). cbn [bind]. rewrite Hc. reflexivity.
Qed.

Lemma gather_diffs_quiet_day_witness :
  gather_diffs DemoForm.detached_world "/repo" ["main"] (mkdate 2025 4 8) = Ok [].
Proof.
  apply (gather_diffs_quiet_day DemoForm.detached_world "/repo" ["main"] (mkdate 2025 4 8)
           DemoForm.detached_repo ["main"]); [reflexivity|reflexivity|].
  constructor; [|constructor].
  exists [Demo.third_commit; Demo.second_commit; Demo.root_commit].
  split; [reflexivity|].
  repeat constructor.
  - exists (mkdatetime 2025 4 10 2 0 0 0). split; reflexivity.
  - exists (mkdatetime 2025 4 10 1 59 59 0). split; reflexivity.
  - exists (mkdatetime 2025 4 9 2 0 0 0). split; reflexivity.
Defined.

End GitExtras.

(** ** More on strings and on the prompt builder *)

Module StrMoreFacts.
Import Str PromptSpec StrFacts.

Lemma length_append (a b : string) :
  String.length (a ++ b) = (String.length a + String.length b)%nat.
Proof.
  induction a as [|x a IH]; [reflexivity|].
  rewrite append_cons. simpl. rewrite IH. reflexivity.
Qed.

Lemma prefix_split (sep s : string) :
  String.prefix sep s = true -> exists r, s = sep ++ r.
Proof.
  revert s; induction sep as [|x sep IH]; intros s H; [exists s; reflexivity|].
  destruct s as [|y s]; [discriminate|]. simpl in H.
  destruct (ascii_dec x y) as [->|]; [|discriminate].
  destruct (IH s H) as [r ->]. exists r. reflexivity.
Qed.

Lemma concat_cons (sep x y : string) (l : list string) :
  String.concat sep (x :: y :: l) = x ++ sep ++ String.concat sep (y :: l).
Proof. reflexivity. Qed.

Lemma concat_cons_char (sep : string) (a : ascii) (p : string) (ps : list string) :
  String.concat sep (String a p :: ps) = String a (String.concat sep (p :: ps)).
Proof. destruct ps; reflexivity. Qed.

(** [sep.join(s.split(sep))] is [s]. *)
Lemma concat_split_go (sep : string) (n : nat) :
  sep <> "" ->
  forall s, (String.length s <= n)%nat -> String.concat sep (split_go sep 0 s) = s.
Proof.
  intros Hsep. induction n as [|n IH]; intros s Hlen.
  - destruct s; [reflexivity|simpl in Hlen; lia].
  - destruct s as [|a s]; [reflexivity|].
    cbn [split_go]. destruct (String.prefix sep (String a s)) eqn:E.
    + destruct (prefix_split _ _ E) as [r Hr].
      destruct sep as [|c t]; [contradiction|].
      rewrite append_cons in Hr. injection Hr as -> ->.
      replace (String.length (String c t) - 1)%nat with (String.length t)
        by (simpl; lia).
      rewrite split_go_skip.
      simpl in Hlen. rewrite length_append in Hlen.
      destruct (split_go (String c t) 0 r) as [|p ps] eqn:Er;
        [destruct (split_go_nonempty _ _ _ Er)|].
      rewrite concat_cons, <- Er, IH by lia. reflexivity.
    + simpl in Hlen.
      destruct (split_go sep 0 s) as [|p ps] eqn:Es;
        [destruct (split_go_nonempty _ _ _ Es)|].
      rewrite concat_cons_char, <- Es, IH by lia. reflexivity.
Qed.

Lemma join_split (sep s : string) :
  sep <> "" -> join sep (split_go sep 0 s) = s.
Proof. intros H. apply (concat_split_go sep (String.length s) H). lia. Qed.

(** A string in which the separator occurs has at least two pieces. *)
Lemma split_go_two (sep s : string) :
  sep <> "" -> contains sep s = true ->
  exists p0 p1 rest, split_go sep 0 s = p0 :: p1 :: rest.
Proof.
  intros Hsep. induction s as [|a s IH]; intros H.
  - destruct sep; [contradiction|discriminate].
  - cbn [split_go]. cbn [contains] in H.
    destruct (String.prefix sep (String a s)) eqn:E.
    + destruct (split_go sep (String.length sep - 1) s) as [|p ps] eqn:Es;
        [destruct (split_go_nonempty _ _ _ Es)|]. eauto.
    + simpl in H. destruct (IH H) as (p0 & p1 & rest & ->). eauto.
Qed.

Lemma concat_In (sep x : string) (l : list string) :
  In x l -> exists a b, String.concat sep l = a ++ x ++ b.
Proof.
  induction l as [|y l IH]; [contradiction|].
  intros [-> | Hin].
  - destruct l as [|z l].
    + exists "", "". simpl. rewrite append_nil_r. reflexivity.
    + exists "", (sep ++ String.concat sep (z :: l)). reflexivity.
  - destruct l as [|z l]; [contradiction|].
    destruct (IH Hin) as (a & b & Hab).
    exists (y ++ sep ++ a), b.
    rewrite concat_cons, Hab, !append_assoc. reflexivity.
Qed.

End StrMoreFacts.

Module PromptExtras.
Import Str DateTime Prompt PromptSpec StrFacts StrMoreFacts PromptFacts.

(** X4: a style that is not [short], [medium] or [long] makes
    [build_template] and [build_full_prompt] raise a [KeyError] for it. *)
Theorem unknown_style_raises (diffs : list string) (project : string) (d : date)
    (style : string) :
  style <> "short" -> style <> "medium" -> style <> "long" ->
  build_template project d style = Raise (KeyError style) /\
  build_full_prompt diffs project d style = Raise (KeyError style).
Proof.
  intros H1 H2 H3.
  assert (H : sentence_map !! style = None).
  { unfold sentence_map. rewrite !lookup_insert_ne by congruence. apply lookup_empty. }
  unfold build_full_prompt, build_template, lookup_key. rewrite H. split; reflexivity.
Qed.

Lemma unknown_style_raises_witness :
  build_template "repo" Demo.april_9 "tiny" = Raise (KeyError "tiny") /\
  build_full_prompt ["diff"] "repo" Demo.april_9 "tiny" = Raise (KeyError "tiny").
Proof.
  apply (unknown_style_raises ["diff"] "repo" Demo.april_9 "tiny"); discriminate.
Defined.

(** X5: where the name of the project does not contain the length directive
    of the style, [build_full_prompt] returns the header of
    [build_template] with the diffs block and a blank line put in before
    the directive, the text of the header before and after it unchanged. *)
Theorem build_full_prompt_keeps_header (diffs : list string) (project : string) (d : date)
    (style directive : string) :
  sentence_map !! style = Some directive ->
  contains directive project = false ->
  build_template project d style
    = Ok (header_before project d style ++ directive ++ header_after d) /\
  build_full_prompt diffs project d style
    = Ok (header_before project d style ++ diffs_block diffs ++ nl ++ nl ++
          directive ++ header_after d).
Proof.
  intros Hs Hp. split.
  - apply build_template_parts, Hs.
  - apply (build_full_prompt_splice diffs project d style directive Hs Hp).
Qed.

Lemma build_full_prompt_keeps_header_witness :
  build_template "repo" Demo.april_9 "long"
    = Ok (header_before "repo" Demo.april_9 "long" ++ "Use 6–8 sentences." ++
          header_after Demo.april_9) /\
  build_full_prompt ["first"; "second"] "repo" Demo.april_9 "long"
    = Ok (header_before "repo" Demo.april_9 "long" ++
          diffs_block ["first"; "second"] ++ nl ++ nl ++
          "Use 6–8 sentences." ++ header_after Demo.april_9).
Proof.
  apply (build_full_prompt_keeps_header ["first"; "second"] "repo" Demo.april_9 "long"
           "Use 6–8 sentences."); reflexivity.
Defined.

(** X6: the header of [build_template] has the name of the project, the
    date as "April 09, 2025" and as "09.04.2025", and the length directive
    of the style, for every project name and date. *)
Theorem build_template_has_name_date_directive (project : string) (d : date)
    (style directive : string) :
  sentence_map !! style = Some directive ->
  exists header,
    build_template project d style = Ok header /\
    contains project header = true /\
    contains (strftime_long d) header = true /\
    contains (strftime_dmy d) header = true /\
    contains directive header = true.
Proof. apply build_template_contains. Qed.

Lemma build_template_has_name_date_directive_witness :
  exists header,
    build_template Demo.doubled_name Demo.april_9 "medium" = Ok header /\
    contains Demo.doubled_name header = true /\
    contains (strftime_long Demo.april_9) header = true /\
    contains (strftime_dmy Demo.april_9) header = true /\
    contains "Use 4–5 sentences." header = true.
Proof.
  apply (build_template_has_name_date_directive Demo.doubled_name Demo.april_9 "medium"
           "Use 4–5 sentences.").
  reflexivity.
Defined.

(** X7: where the name of the project does not contain the directive, every
    diff handed to [build_full_prompt] is in the prompt as it is, with no
    escaping, and so are the name, the date in both forms and the
    directive. *)
Theorem build_full_prompt_embeds_diffs (diffs : list string) (project : string) (d : date)
    (style directive : string) :
  sentence_map !! style = Some directive ->
  contains directive project = false ->
  exists out,
    build_full_prompt diffs project d style = Ok out /\
    (forall x, In x diffs -> contains x out = true) /\
    contains project out = true /\
    contains (strftime_long d) out = true /\
    contains (strftime_dmy d) out = true /\
    contains directive out = true.
Proof.
  intros Hs Hp.
  destruct (build_full_prompt_contains diffs project d style directive Hs Hp)
    as (out & Hout & Hproj & Hlong & Hdmy & Hdir & _).
  exists out. repeat split; try assumption.
  intros x Hx.
  rewrite (build_full_prompt_splice diffs project d style directive Hs Hp) in Hout.
  injection Hout as <-. unfold spliced.
  destruct diffs as [|y diffs]; [contradiction|].
  destruct (concat_In (nl ++ nl) x (y :: diffs) Hx) as (a & b & Hab).
  apply (contains_middle _ _ (header_before project d style ++ a)
           (b ++ nl ++ nl ++ directive ++ header_after d)).
  unfold diffs_block, join. rewrite Hab, !append_assoc. reflexivity.
Qed.

Lemma build_full_prompt_embeds_diffs_witness :
  exists out,
    build_full_prompt ["<b>&amp;"; "second"] "repo" Demo.april_9 "short" = Ok out /\
    (forall x, In x ["<b>&amp;"; "second"] -> contains x out = true) /\
    contains "repo" out = true /\
    contains (strftime_long Demo.april_9) out = true /\
    contains (strftime_dmy Demo.april_9) out = true /\
    contains "Use 2–3 sentences." out = true.
Proof.
  apply (build_full_prompt_embeds_diffs ["<b>&amp;"; "second"] "repo" Demo.april_9 "short"
           "Use 2–3 sentences."); reflexivity.
Defined.

(** X8: for each of the three styles and every project name,
    [build_full_prompt] returns a prompt and never fails on [parts[1]]: the
    header is [p0 ++ directive ++ p1 ++ tail], where [tail] is empty or
    begins with the directive again, and the prompt is [p0], the diffs
    block, a blank line, the directive and [p1]; [tail] is left out. *)
Theorem build_full_prompt_shape (diffs : list string) (project : string) (d : date)
    (style directive : string) :
  sentence_map !! style = Some directive ->
  exists p0 p1 tail,
    build_template project d style = Ok (p0 ++ directive ++ p1 ++ tail) /\
    (tail = "" \/ exists t, tail = directive ++ t) /\
    build_full_prompt diffs project d style
      = Ok (p0 ++ diffs_block diffs ++ nl ++ nl ++ directive ++ p1).
Proof.
  intros Hs.
  assert (Hne : directive <> "")
    by (destruct (style_cases _ _ Hs) as [[_ ->] | [[_ ->] | [_ ->]]]; discriminate).
  pose proof (build_template_parts project d style directive Hs) as Hb.
  set (header := header_before project d style ++ directive ++ header_after d) in *.
  assert (Hc : contains directive header = true) by apply contains_append.
  destruct (split_go_two directive header Hne Hc) as (p0 & p1 & rest & Hsplit).
  pose proof (join_split directive header Hne) as Hj.
  rewrite Hsplit in Hj. unfold join in Hj. rewrite concat_cons in Hj.
  exists p0, p1, (match rest with [] => "" | _ => directive ++ String.concat directive rest end).
  split; [|split].
  - rewrite Hb, <- Hj. do 3 f_equal.
    destruct rest; [rewrite append_nil_r; reflexivity|apply concat_cons].
  - destruct rest; [left; reflexivity|right; eauto].
  - unfold build_full_prompt. rewrite Hb. cbn [bind].
    unfold lookup_key. rewrite Hs. cbn [bind].
    unfold split. destruct directive; [contradiction|].
    rewrite Hsplit. reflexivity.
Qed.

Lemma build_full_prompt_shape_witness :
  exists p0 p1 tail,
    build_template Demo.directive_name Demo.april_9 "short"
      = Ok (p0 ++ "Use 2–3 sentences." ++ p1 ++ tail) /\
    (tail = "" \/ exists t, tail = "Use 2–3 sentences." ++ t) /\
    build_full_prompt [] Demo.directive_name Demo.april_9 "short"
      = Ok (p0 ++ diffs_block [] ++ nl ++ nl ++ "Use 2–3 sentences." ++ p1).
Proof.
  apply (build_full_prompt_shape [] Demo.directive_name Demo.april_9 "short"
           "Use 2–3 sentences.").
  reflexivity.
Defined.

End PromptExtras.

(** ** White space at the ends of a string *)

Module StripFacts.
Import Str PromptSpec StrFacts StrMoreFacts.

Lemma rev_app_spec (a b : string) : String.rev_app a b = String.rev a ++ b.
Proof.
  unfold String.rev. revert b; induction a as [|x a IH]; intros b; [reflexivity|].
  cbn [String.rev_app]. rewrite (IH (String x b)), (IH (String x "")).
  rewrite append_assoc. reflexivity.
Qed.

Lemma rev_cons (x : ascii) (a : string) :
  String.rev (String x a) = String.rev a ++ String x "".
Proof. unfold String.rev at 1. cbn [String.rev_app]. apply rev_app_spec. Qed.

Lemma rev_append (a b : string) : String.rev (a ++ b) = String.rev b ++ String.rev a.
Proof.
  induction a as [|x a IH].
  - rewrite append_nil_l. change (String.rev "") with "". rewrite append_nil_r. reflexivity.
  - rewrite append_cons, !rev_cons, IH, append_assoc. reflexivity.
Qed.

Lemma rev_involutive (s : string) : String.rev (String.rev s) = s.
Proof.
  induction s as [|x s IH]; [reflexivity|].
  rewrite rev_cons, rev_append, IH. reflexivity.
Qed.

(** What is left of a string after [lstrip_go] begins with no ASCII blank. *)
Lemma lstrip_go_head (fwd : bool) (n : nat) :
  forall s, (String.length s <= n)%nat ->
  forall a t, lstrip_go fwd s = String a t -> space1 (code a) = false.
Proof.
  induction n as [|n IH]; intros s Hlen a t H.
  - destruct s; [discriminate|simpl in Hlen; lia].
  - destruct s as [|x s1]; [discriminate|]. simpl in Hlen.
    cbn [lstrip_go] in H.
    destruct (space1 (code x)) eqn:E1; [apply (IH s1 ltac:(lia) a t H)|].
    destruct s1 as [|y s2]; [injection H as <- _; exact E1|]. simpl in Hlen.
    destruct (if fwd then space2 (code x) (code y) else space2 (code y) (code x));
      [apply (IH s2 ltac:(lia) a t H)|].
    destruct s2 as [|z s3]; [injection H as <- _; exact E1|]. simpl in Hlen.
    destruct (if fwd then space3 (code x) (code y) (code z)
              else space3 (code z) (code y) (code x));
      [apply (IH s3 ltac:(lia) a t H)|].
    injection H as <- _. exact E1.
Qed.

(** It is the end of the string. *)
Lemma lstrip_go_suffix (fwd : bool) (n : nat) :
  forall s, (String.length s <= n)%nat -> exists p, s = p ++ lstrip_go fwd s.
Proof.
  induction n as [|n IH]; intros s Hlen.
  - destruct s; [exists ""; reflexivity|simpl in Hlen; lia].
  - destruct s as [|x s1]; [exists ""; reflexivity|]. simpl in Hlen.
    cbn [lstrip_go].
    destruct (space1 (code x)).
    { destruct (IH s1 ltac:(lia)) as [p Hp]. exists (String x p).
      rewrite append_cons, <- Hp. reflexivity. }
    destruct s1 as [|y s2]; [exists ""; reflexivity|]. simpl in Hlen.
    destruct (if fwd then space2 (code x) (code y) else space2 (code y) (code x)).
    { destruct (IH s2 ltac:(lia)) as [p Hp]. exists (String x (String y p)).
      rewrite !append_cons, <- Hp. reflexivity. }
    destruct s2 as [|z s3]; [exists ""; reflexivity|]. simpl in Hlen.
    destruct (if fwd then space3 (code x) (code y) (code z)
              else space3 (code z) (code y) (code x)).
    { destruct (IH s3 ltac:(lia)) as [p Hp]. exists (String x (String y (String z p))).
      rewrite !append_cons, <- Hp. reflexivity. }
    exists "". reflexivity.
Qed.

(** [strip] leaves no ASCII blank at the start and none at the end. *)
Lemma strip_ends (s : string) :
  (forall a t, strip s = String a t -> space1 (code a) = false) /\
  (forall a t, strip s = t ++ String a "" -> space1 (code a) = false).
Proof.
  unfold strip, rstrip, lstrip.
  set (l := lstrip_go true s).
  set (u := lstrip_go false (String.rev l)).
  split; intros a t H.
  - destruct (lstrip_go_suffix false _ (String.rev l) (Nat.le_refl _)) as [p Hp].
    fold u in Hp.
    assert (Hl : l = String.rev u ++ String.rev p)
      by (rewrite <- rev_append, <- Hp, rev_involutive; reflexivity).
    rewrite H, append_cons in Hl.
    apply (lstrip_go_head true _ s (Nat.le_refl _) a _ Hl).
  - assert (Hu : u = String a (String.rev t)).
    { rewrite <- (rev_involutive u), H, rev_append. reflexivity. }
    apply (lstrip_go_head false _ (String.rev l) (Nat.le_refl _) a _ Hu).
Qed.

(** A character of ASCII that is no blank stops [lstrip_go]. *)
Lemma lstrip_go_stops (fwd : bool) (a : ascii) (r : string) :
  code a < 128 -> space1 (code a) = false ->
  lstrip_go fwd (String a r) = String a r.
Proof.
  intros Ha E1. cbn [lstrip_go]. rewrite E1.
  assert (H2 : forall b, space2 (code a) b = false /\ space2 b (code a) = false).
  { intros b. unfold space2. split.
    - destruct (Z.eqb_spec (code a) 194); [lia|reflexivity].
    - destruct (Z.eqb_spec (code a) 133); [lia|].
      destruct (Z.eqb_spec (code a) 160); [lia|]. apply andb_false_r. }
  assert (H3 : forall b c, space3 (code a) b c = false /\ space3 c b (code a) = false).
  { intros b c. unfold space3. split.
    - destruct (Z.eqb_spec (code a) 225); [lia|].
      destruct (Z.eqb_spec (code a) 226); [lia|].
      destruct (Z.eqb_spec (code a) 227); [lia|]. reflexivity.
    - destruct (Z.eqb_spec (code a) 128); [lia|].
      destruct (Z.eqb_spec (code a) 168); [lia|].
      destruct (Z.eqb_spec (code a) 169); [lia|].
      destruct (Z.eqb_spec (code a) 175); [lia|].
      destruct (Z.eqb_spec (code a) 159); [lia|].
      destruct (Z.leb_spec 128 (code a)); [lia|].
      rewrite !andb_false_r. reflexivity. }
  destruct r as [|b r]; [reflexivity|].
  destruct (H2 (code b)) as [-> ->].
  destruct r as [|c r]; [destruct fwd; reflexivity|].
  destruct (H3 (code b) (code c)) as [-> ->].
  destruct fwd; reflexivity.
Qed.

(** The line feed Tk puts at the end of the text is white space at the end. *)
Lemma rstrip_widget_get (s : string) : rstrip (App.widget_get s) = rstrip s.
Proof.
  unfold rstrip, App.widget_get, nl. rewrite rev_append.
  change (String.rev (String (ascii_of_nat 10) "")) with (String (ascii_of_nat 10) "").
  rewrite append_cons, append_nil_l. reflexivity.
Qed.

(** A text between two characters of ASCII that are no blanks comes back
    from the widget and [strip] as it was. *)
Lemma strip_widget_get (a z : ascii) (m : string) :
  code a < 128 -> space1 (code a) = false ->
  code z < 128 -> space1 (code z) = false ->
  strip (App.widget_get (String a (m ++ String z ""))) = String a (m ++ String z "").
Proof.
  intros Ha Ea Hz Ez. unfold strip, lstrip.
  unfold App.widget_get at 1. rewrite append_cons.
  rewrite (lstrip_go_stops true a _ Ha Ea), <- append_cons.
  fold (App.widget_get (String a (m ++ String z ""))).
  rewrite rstrip_widget_get. unfold rstrip.
  rewrite <- append_cons, rev_append.
  change (String.rev (String z "")) with (String z "").
  rewrite append_cons, append_nil_l, (lstrip_go_stops false z _ Hz Ez).
  change (String z (String.rev (String a m))) with (String.rev (String z "") ++ String.rev (String a m)).
  rewrite <- rev_append, rev_involutive. reflexivity.
Qed.

End StripFacts.

(** ** More on the Gemini call *)

Module GeminiMoreFacts.
Import Str Json Gemini GeminiSpec GeminiSteps ResultFacts GeminiFacts.

Lemma generate_with_gemini_reads (post : transport) (prompt api_key : string)
    (resp : response) :
  post (GEMINI_URL ++ "?key=" ++ api_key) (payload prompt) = Ok resp ->
  ~ client_or_server_error resp ->
  generate_with_gemini post prompt api_key = let* body := json_body resp in read_candidates body.
Proof.
  intros Hp Hc. unfold generate_with_gemini. rewrite Hp. cbn [bind].
  unfold raise_for_status.
  destruct ((400 <=? status_code resp) && (status_code resp <? 600)) eqn:E.
  - exfalso. apply Hc. unfold client_or_server_error.
    apply andb_true_iff in E as [E1 E2]. apply Z.leb_le in E1. apply Z.ltb_lt in E2. lia.
  - reflexivity.
Qed.

Lemma read_first_candidate (o : list (string * json)) (first : json) (rest : list json) :
  to_dict o !! "candidates" = Some (JArr (first :: rest)) ->
  read_candidates (JObj o) =
  (let* content := subscript first "content" in
   let* parts := subscript content "parts" in
   let* ps := iterate parts in
   let* texts := mapM (fun p => get p "text" (JStr "")) ps in
   let* joined := join_values "" texts in
   Ok (strip joined)).
Proof. intros H. unfold read_candidates. cbn [get bind]. rewrite H. reflexivity. Qed.

Lemma generate_with_gemini_strip (post : transport) (prompt api_key out : string) :
  generate_with_gemini post prompt api_key = Ok out -> exists joined, out = strip joined.
Proof.
  unfold generate_with_gemini. intros H.
  apply bind_ok in H as (resp & _ & H).
  apply bind_ok in H as (u & _ & H).
  apply bind_ok in H as (body & _ & H).
  apply bind_ok in H as (cands & _ & H).
  destruct (negb (truthy cands)); [discriminate|].
  apply bind_ok in H as (first & _ & H).
  apply bind_ok in H as (content & _ & H).
  apply bind_ok in H as (parts & _ & H).
  apply bind_ok in H as (ps & _ & H).
  apply bind_ok in H as (texts & _ & H).
  apply bind_ok in H as (joined & _ & H).
  injection H as <-. eauto.
Qed.

Lemma textless_parts (ps : list json) :
  Forall (fun p => exists o, p = JObj o /\ to_dict o !! "text" = None) ps ->
  exists texts,
    mapM (fun p => get p "text" (JStr "")) ps = Ok (map JStr texts) /\ join "" texts = "".
Proof.
  induction 1 as [|p ps (o & -> & Ho) _ (texts & Hm & Hj)].
  - exists []. split; reflexivity.
  - exists ("" :: texts). split.
    + cbn [mapM get bind]. rewrite Ho. cbn [bind]. rewrite Hm. reflexivity.
    + unfold join in *. destruct texts; [reflexivity|].
      change (String.concat "" ("" :: s :: texts)) with (String.concat "" (s :: texts)).
      exact Hj.
Qed.

End GeminiMoreFacts.

Module GeminiExtras.
Import Str Json Gemini GeminiSpec GeminiSteps ResultFacts GeminiFacts GeminiMoreFacts StripFacts.

(** X9: of the candidates of a response [generate_with_gemini] reads the
    first one only: the result is the one it gives for a response of the
    same status whose body has nothing but that candidate. *)
Theorem only_first_candidate_is_read (post : transport) (prompt api_key : string)
    (resp : response) (o : list (string * json)) (first : json) (rest : list json) :
  post (GEMINI_URL ++ "?key=" ++ api_key) (payload prompt) = Ok resp ->
  json_body resp = Ok (JObj o) ->
  to_dict o !! "candidates" = Some (JArr (first :: rest)) ->
  generate_with_gemini post prompt api_key =
  generate_with_gemini
    (fun _ _ => Ok {| status_code := status_code resp;
                      json_body := Ok (JObj [("candidates", JArr [first])]) |})
    prompt api_key.
Proof.
  intros Hp Hb Hc. unfold generate_with_gemini. rewrite Hp. cbn [bind].
  unfold raise_for_status. cbn [status_code json_body].
  destruct ((400 <=? status_code resp) && (status_code resp <? 600)); [reflexivity|].
  cbn [bind]. rewrite Hb. cbn [bind].
  fold (read_candidates (JObj o)).
  fold (read_candidates (JObj [("candidates", JArr [first])])).
  rewrite (read_first_candidate o first rest Hc).
  rewrite (read_first_candidate [("candidates", JArr [first])] first [] eq_refl).
  reflexivity.
Qed.

Lemma only_first_candidate_is_read_witness :
  generate_with_gemini
    (Demo.reply (JObj [("candidates",
                        JArr [JObj [("content", JObj [("parts", JArr [])])];
                              JStr "not a candidate"])]))
    "prompt" "key" =
  generate_with_gemini
    (fun _ _ => Ok {| status_code := 200;
                      json_body :=
                        Ok (JObj [("candidates",
                                   JArr [JObj [("content", JObj [("parts", JArr [])])]])]) |})
    "prompt" "key".
Proof.
  apply (only_first_candidate_is_read
           (Demo.reply (JObj [("candidates",
                               JArr [JObj [("content", JObj [("parts", JArr [])])];
                                     JStr "not a candidate"])]))
           "prompt" "key"
           {| status_code := 200;
              json_body := Ok (JObj [("candidates",
                                      JArr [JObj [("content", JObj [("parts", JArr [])])];
                                            JStr "not a candidate"])]) |}
           [("candidates", JArr [JObj [("content", JObj [("parts", JArr [])])];
                                 JStr "not a candidate"])]
           (JObj [("content", JObj [("parts", JArr [])])])
           [JStr "not a candidate"]); reflexivity.
Defined.

(** X10: the text [generate_with_gemini] returns begins with no ASCII blank
    (space, tab, line feed, carriage return and the like) and ends with
    none. *)
Theorem generated_text_has_no_blank_ends (post : transport) (prompt api_key out : string) :
  generate_with_gemini post prompt api_key = Ok out ->
  (forall a t, out = String a t -> space1 (code a) = false) /\
  (forall a t, out = t ++ String a "" -> space1 (code a) = false).
Proof.
  intros H. destruct (generate_with_gemini_strip _ _ _ _ H) as [joined ->].
  destruct (strip_ends joined) as [Hs He].
  split; intros a t Ht; [apply (Hs a t Ht)|apply (He a t Ht)].
Qed.

Lemma generated_text_has_no_blank_ends_witness :
  space1 (code "D") = false /\ space1 (code ".") = false.
Proof.
  pose proof (generated_text_has_no_blank_ends (Demo.reply Demo.padded_body)
                "prompt" "key" "Did X." eq_refl) as [Hs He].
  split; [exact (Hs "D"%char "id X." eq_refl)|exact (He "."%char "Did X" eq_refl)].
Defined.

(** X11: a first candidate whose parts have no [text], and one with no parts
    at all, gives the empty string and no error. *)
Theorem parts_without_text_give_empty (post : transport) (prompt api_key : string)
    (resp : response) (body : json) (ps : list json) :
  post (GEMINI_URL ++ "?key=" ++ api_key) (payload prompt) = Ok resp ->
  ~ client_or_server_error resp ->
  json_body resp = Ok body ->
  first_candidate_parts body (JArr ps) ->
  Forall (fun p => exists o, p = JObj o /\ to_dict o !! "text" = None) ps ->
  generate_with_gemini post prompt api_key = Ok "".
Proof.
  intros Hp Hc Hb (o & fo & rest & co & -> & Hcands & Hcontent & Hparts) Hps.
  rewrite (generate_with_gemini_reads post prompt api_key resp Hp Hc), Hb. cbn [bind].
  rewrite (read_first_candidate o (JObj fo) rest Hcands).
  assert (H3 : subscript (JObj fo) "content" = Ok (JObj co))
    by (apply subscript_ok; eauto).
  assert (H4 : subscript (JObj co) "parts" = Ok (JArr ps))
    by (apply subscript_ok; eauto).
  rewrite H3. cbn [bind]. rewrite H4. cbn [bind iterate].
  destruct (textless_parts ps Hps) as (texts & Hm & Hj).
  rewrite Hm. cbn [bind].
  assert (Hjv : join_values "" (map JStr texts) = Ok (join "" texts))
    by (apply join_values_ok; eauto).
  rewrite Hjv, Hj. reflexivity.
Qed.

Lemma parts_without_text_give_empty_witness :
  generate_with_gemini
    (Demo.reply (JObj [("candidates",
                        JArr [JObj [("content",
                                     JObj [("parts", JArr [JObj [("inlineData", JNull)]])])]])]))
    "prompt" "key" = Ok "".
Proof.
  apply (parts_without_text_give_empty _ "prompt" "key"
           {| status_code := 200;
              json_body :=
                Ok (JObj [("candidates",
                           JArr [JObj [("content",
                                        JObj [("parts",
                                               JArr [JObj [("inlineData", JNull)]])])]])]) |}
           (JObj [("candidates",
                   JArr [JObj [("content",
                                JObj [("parts", JArr [JObj [("inlineData", JNull)]])])]])])
           [JObj [("inlineData", JNull)]]).
  - reflexivity.
  - unfold client_or_server_error. simpl. lia.
  - reflexivity.
  - exists [("candidates",
             JArr [JObj [("content", JObj [("parts", JArr [JObj [("inlineData", JNull)]])])]])],
      [("content", JObj [("parts", JArr [JObj [("inlineData", JNull)]])])],
      [], [("parts", JArr [JObj [("inlineData", JNull)]])].
    repeat split.
  - repeat constructor. exists [("inlineData", JNull)]. split; reflexivity.
Defined.

End GeminiExtras.

(** ** More on the settings store *)

Module SettingsMoreFacts.
Import Json Ui Settings SettingsFacts PairList.

Lemma load_after_save (C : codec) (cwd : string) (f : config_file C)
    (cfg : gmap string json) :
  lawful C -> preferences cfg -> write_error f = None -> read_error f = None ->
  load_config cwd (fst (save_config f cfg)) = (cfg, []).
Proof.
  intros Hlaw Hp Hw Hr.
  unfold save_config, write_text. rewrite Hw. simpl.
  unfold load_config, exists_, read_text. simpl. rewrite Hr. simpl.
  destruct (Hlaw cfg) as (items & -> & Hitems). simpl.
  rewrite Hitems. f_equal.
  apply map_eq. intros k. rewrite lookup_union.
  destruct (cfg !! k) as [v|] eqn:Hk; destruct (defaults cwd !! k) as [v'|] eqn:Hd;
    try reflexivity.
  assert (Hin : In k default_keys) by (apply (defaults_lookup cwd); rewrite Hd; eauto).
  destruct (Hp k Hin) as [x Hx]. congruence.
Qed.


Lemma save_config_errors (C : codec) (f : config_file C) (cfg : gmap string json) :
  write_error f = None ->
  write_error (fst (save_config f cfg)) = None /\
  read_error (fst (save_config f cfg)) = read_error f.
Proof. intros Hw. unfold save_config, write_text. rewrite Hw. split; reflexivity. Qed.

Lemma update_pairs_stored (pairs : list (string * json)) (tail : list json)
    (d : gmap string json) :
  update_pairs d (map pair_json pairs ++ tail) = update_pairs (store pairs d) tail.
Proof.
  revert d; induction pairs as [|[k v] pairs IH]; intros d; [reflexivity|].
  simpl. apply IH.
Qed.

End SettingsMoreFacts.

Module SettingsExtras.
Import Json Ui Settings SettingsFacts SettingsMoreFacts PairList.

(** X12: the last save wins: after two saves to a file that can be written
    and read, [load_config] returns the record of the second one, whatever
    the first one wrote. *)
Theorem last_save_wins (C : codec) (cwd : string) (f : config_file C)
    (first second : gmap string json) :
  lawful C -> preferences second ->
  write_error f = None -> read_error f = None ->
  load_config cwd (fst (save_config (fst (save_config f first)) second)) = (second, []).
Proof.
  intros Hlaw Hp Hw Hr.
  destruct (save_config_errors C f first Hw) as [Hw' Hr'].
  apply load_after_save; [exact Hlaw|exact Hp|exact Hw'|].
  rewrite Hr'. exact Hr.
Qed.

Lemma plain_codec_lawful : lawful Demo.plain_codec.
Proof.
  intros d. exists (map_to_list d). split; [reflexivity|apply list_to_map_to_list].
Defined.

Lemma saved_settings_are_preferences : preferences Demo.saved_settings.
Proof.
  intros k Hk. simpl in Hk.
  destruct Hk as [<- | [<- | [<- | [<- | [<- | []]]]]]; eexists; reflexivity.
Defined.

Lemma last_save_wins_witness :
  load_config "/home"
    (fst (save_config (fst (save_config Demo.fresh_file (defaults "/elsewhere")))
            Demo.saved_settings))
  = (Demo.saved_settings, []).
Proof.
  apply (last_save_wins Demo.plain_codec "/home" Demo.fresh_file (defaults "/elsewhere")
           Demo.saved_settings plain_codec_lawful saved_settings_are_preferences);
    reflexivity.
Defined.



(** X14: a settings file that holds a JSON list of [key, value] pairs is
    read like an object, the pairs stored in their order over the defaults,
    with no warning.  An element that is no pair stops the reading with the
    warning, and the pairs before it stay in the record, which then is not
    the default record the warning speaks of.  A file that holds a number,
    a boolean or [null] gives the defaults and the warning. *)
Theorem load_config_list_file (C : codec) (cwd : string) (f : config_file C) (t : text C) :
  content f = Some t -> read_error f = None ->
  (forall pairs,
      loads C t = Ok (JArr (map pair_json pairs)) ->
      load_config cwd f = (store pairs (defaults cwd), [])) /\
  (forall pairs e rest,
      loads C t = Ok (JArr (map pair_json pairs ++ e :: rest)) ->
      is_ok (as_pair e) = false ->
      load_config cwd f = (store pairs (defaults cwd), [corrupted])) /\
  (forall v,
      loads C t = Ok v -> is_ok (iterate v) = false ->
      load_config cwd f = (defaults cwd, [corrupted])).
Proof.
  intros Hc Hr.
  assert (Hload : forall v, loads C t = Ok v ->
            load_config cwd f =
            match update (defaults cwd) v with
            | (cfg', None) => (cfg', [])
            | (cfg', Some _) => (cfg', [corrupted])
            end).
  { intros v Hv. unfold load_config, exists_, read_text. rewrite Hc, Hr. simpl.
    rewrite Hv. reflexivity. }
  split; [|split].
  - intros pairs Hv. rewrite (Hload _ Hv). cbn [update iterate].
    rewrite <- (app_nil_r (map pair_json pairs)), update_pairs_stored. reflexivity.
  - intros pairs e rest Hv He. rewrite (Hload _ Hv). cbn [update iterate].
    rewrite update_pairs_stored. cbn [update_pairs].
    destruct (as_pair e); [discriminate|]. reflexivity.
  - intros v Hv Hi. rewrite (Hload _ Hv).
    destruct v; try discriminate; reflexivity.
Qed.

Lemma load_config_list_file_witness :
  load_config "/home"
    (@Build_config_file list_codec (Some [pair_json ("api_key", JStr "k")]) None None)
  = (<["api_key" := JStr "k"]> (defaults "/home"), []) /\
  load_config "/home"
    (@Build_config_file list_codec
       (Some [pair_json ("api_key", JStr "k"); JInt 7; pair_json ("report_style", JStr "long")])
       None None)
  = (<["api_key" := JStr "k"]> (defaults "/home"), [corrupted]).
Proof.
  split.
  - exact (proj1 (load_config_list_file list_codec "/home"
                    (@Build_config_file list_codec
                       (Some [pair_json ("api_key", JStr "k")]) None None)
                    [pair_json ("api_key", JStr "k")] eq_refl eq_refl)
             [("api_key", JStr "k")] eq_refl).
  - exact (proj1 (proj2 (load_config_list_file list_codec "/home"
                    (@Build_config_file list_codec
                       (Some [pair_json ("api_key", JStr "k"); JInt 7;
                              pair_json ("report_style", JStr "long")]) None None)
                    [pair_json ("api_key", JStr "k"); JInt 7;
                     pair_json ("report_style", JStr "long")] eq_refl eq_refl))
             [("api_key", JStr "k")] (JInt 7) [pair_json ("report_style", JStr "long")]
             eq_refl eq_refl).
Defined.

End SettingsExtras.

(** ** The generate helper and the save action *)

Module AppFacts.
Import Str DateTime Prompt PromptSpec Json Ui Settings App MainWindow.
Import StrFacts StrMoreFacts StripFacts PromptFacts.

(** A text that begins and ends with characters of ASCII that are no blanks
    comes back from the widget and [strip] as it was. *)
Lemma strip_widget_get_ends (s : string) (a z : ascii) (r t : string) :
  s = String a r -> s = t ++ String z "" ->
  code a < 128 -> space1 (code a) = false ->
  code z < 128 -> space1 (code z) = false ->
  strip (widget_get s) = s.
Proof.
  intros Hs Ht Ha Ea Hz Ez. unfold strip, lstrip.
  assert (Hl : lstrip_go true (widget_get s) = widget_get s).
  { unfold widget_get. rewrite Hs, append_cons. apply lstrip_go_stops; assumption. }
  rewrite Hl, rstrip_widget_get. unfold rstrip.
  rewrite Ht at 1. rewrite rev_append.
  change (String.rev (String z "")) with (String z "").
  rewrite append_cons, append_nil_l, (lstrip_go_stops false z _ Hz Ez).
  change (String z (String.rev t)) with (String z "" ++ String.rev t).
  change (String z "") with (String.rev (String z "")).
  rewrite <- rev_append, <- Ht. apply rev_involutive.
Qed.

(** The header begins with "Y" and ends with ":". *)
Lemma header_ends (project : string) (d : date) (style directive : string) :
  exists r t,
    header_before project d style ++ directive ++ header_after d = String "Y" r /\
    header_before project d style ++ directive ++ header_after d = t ++ String ":" "".
Proof.
  exists ("ou are an assistant that writes " ++ style ++
          " daily stand-up updates for software engineers." ++ nl ++
          "Project: " ++ project ++ nl ++
          "Date: " ++ strftime_long d ++ nl ++ nl ++
          "Here are the detailed code diffs for today:" ++ nl ++ nl ++
          directive ++ header_after d),
    (header_before project d style ++ directive ++ nl ++ nl ++
     "Generate a status in the exact format of the examples below:" ++ nl ++ nl ++
     example ++ nl ++ nl ++ "Now write only the entry for " ++ strftime_dmy d).
  unfold header_before, header_after. split.
  - rewrite !append_assoc. reflexivity.
  - rewrite !append_assoc. reflexivity.
Qed.

Lemma build_template_header (project : string) (d : date) (style header : string) :
  build_template project d style = Ok header ->
  exists directive,
    sentence_map !! style = Some directive /\
    header = header_before project d style ++ directive ++ header_after d.
Proof.
  intros H. destruct (sentence_map !! style) as [directive|] eqn:Hs.
  - exists directive. split; [reflexivity|].
    rewrite (build_template_parts project d style directive Hs) in H. congruence.
  - unfold build_template, lookup_key in H. rewrite Hs in H. discriminate.
Qed.

(** The text read back from the prompt area is the header, and putting it
    in the place of the header changes nothing. *)
Lemma header_read_back (project : string) (d : date) (style header full : string) :
  build_template project d style = Ok header ->
  replace full header (strip (widget_get header)) = full.
Proof.
  intros H. destruct (build_template_header _ _ _ _ H) as (directive & _ & ->).
  destruct (header_ends project d style directive) as (r & t & Hr & Ht).
  rewrite (strip_widget_get_ends _ "Y" ":" r t Hr Ht) by (reflexivity || (cbv; reflexivity)).
  rewrite Hr. unfold replace. rewrite <- Hr.
  apply join_split. rewrite Hr. discriminate.
Qed.



End AppFacts.

Module AppExtras.
Import Str DateTime Prompt PromptSpec Json Ui Settings Git Gemini App MainWindow PairList.
Import StrFacts StrMoreFacts StripFacts PromptFacts SettingsMoreFacts AppFacts.

(** X15: when the date parses, the diffs are gathered and the style is one
    of the three, [_generate] puts the header into the prompt area and sends
    the full prompt of [build_full_prompt] to Gemini, unchanged: reading the
    header back from the prompt area and putting it in its own place alters
    nothing.  The output area gets the generated text; if the call fails it
    is emptied and the error is shown. *)
Theorem generate_sends_the_full_prompt (w : world) (post : transport) (pf : platform)
    (repo_path : string) (branches : list string) (date_str rpt_style api_key : string)
    (win : window) (D : date) (diffs : list string) (header full : string) :
  strptime pf date_str = Ok D ->
  gather_diffs w repo_path branches D = Ok diffs ->
  build_template (stem pf repo_path) D rpt_style = Ok header ->
  build_full_prompt diffs (stem pf repo_path) D rpt_style = Ok full ->
  _generate w post pf repo_path branches date_str rpt_style api_key win =
  match generate_with_gemini post full api_key with
  | Ok res => {| prompt_w := header; output_w := res; dialogs := dialogs win |}
  | Raise e =>
      {| prompt_w := header; output_w := "";
         dialogs := (dialogs win ++ [ShowError (StrOf e)])%list |}
  end.
Proof.
  intros Hd Hg Hh Hf. unfold _generate, generate_body.
  rewrite Hd. cbn [bind]. rewrite Hg. cbn [bind]. rewrite Hh. cbn [bind].
  rewrite Hf. cbn [bind].
  rewrite (header_read_back _ _ _ _ full Hh).
  destruct (generate_with_gemini post full api_key); reflexivity.
Qed.

Lemma generate_sends_the_full_prompt_witness :
  output_w (_generate Demo.sample_world (Demo.reply Demo.padded_body) Demo.sample_platform
              "/repo" ["main"] "2025-04-09" "short" "key" Demo.empty_window) = "Did X." /\
  dialogs (_generate Demo.sample_world (Demo.reply Demo.padded_body) Demo.sample_platform
             "/repo" ["main"] "2025-04-09" "short" "key" Demo.empty_window) = [].
Proof.
  pose proof (generate_sends_the_full_prompt Demo.sample_world (Demo.reply Demo.padded_body)
                Demo.sample_platform "/repo" ["main"] "2025-04-09" "short" "key"
                Demo.empty_window Demo.april_9 _ _ _ eq_refl eq_refl eq_refl eq_refl) as H.
  rewrite H. split; reflexivity.
Defined.





End AppExtras.
